(** * video-summary: the segment planner and the summary composer of
    [main.py], embedded and verified.

    Python's numbers are embedded exactly: [num_segments] is an unbounded
    integer ([Z]); durations and times are rationals ([Q]), the exact values
    of which the interpreter's binary64 numbers are roundings.  The inputs
    at which a statement is refuted below are dyadic, and so is every value
    computed from them, so the interpreter computes there the very same
    values.

    The media library (moviepy) is an oracle: a record of functions which
    either return a handle or raise.  What the program does to it — the
    calls it makes, in order, and what it prints — is recorded in a trace. *)

From Stdlib Require Import List String Ascii ZArith QArith Qround Qminmax Lia Lqa Bool.
Import ListNotations.

Local Open Scope Q_scope.

(** ** Exceptions and outcomes *)

(** The exceptions the program raises itself, and whatever the media library
    raises ([BackendError]).  All of them are instances of [Exception], so
    an [except Exception] clause catches every one. *)
Inductive exn : Type :=
| ValueError (msg : string)
| ZeroDivisionError
| BackendError (msg : string).

(** [str(e)], as the program formats an exception into a message. *)
Definition exn_str (e : exn) : string :=
  match e with
  | ValueError msg => msg
  | ZeroDivisionError => "division by zero"
  | BackendError msg => msg
  end.

(** A call either raises or returns. *)
Inductive outcome (A : Type) : Type :=
| Raise (e : exn)
| Return (a : A).
Arguments Raise {A} e.
Arguments Return {A} a.

(** ** The media library *)

(** Clip and audio handles are opaque to the program. *)
Definition Clip := nat.
Definition Audio := nat.

(** The opened source: [mp.VideoFileClip(input_path)] and the attributes and
    methods the program uses on it. *)
Record Video : Type := {
  fps : Q;
  size : Z * Z;
  duration : Q;
  audio : option Audio;                          (* [self.video.audio], falsy when [None] *)
  subclipped : Q -> Q -> outcome Clip;           (* [self.video.subclipped(t0, t1)] *)
  audio_subclip : Audio -> Q -> Q -> outcome Audio (* [self.video.audio.subclip(t0, t1)] *)
}.

(** The module-level functions and the methods of clips. *)
Record Moviepy : Type := {
  VideoFileClip : string -> outcome Video;
  with_duration : Clip -> Q -> outcome Clip;
  concatenate_videoclips : list Clip -> string -> outcome Clip;
  set_audio : Clip -> Audio -> outcome Clip;
  write_videofile : Clip -> string -> string -> string -> Q -> outcome unit
}.

(** ** [os.path.splitext]

    The library's [genericpath._splitext]: the extension starts at the last
    dot of the last path component, unless that component has nothing but
    dots before it. *)

(** Path separators: [posixpath] has one, [ntpath] has two ([sep] and
    [altsep]; the later of their last occurrences counts). *)
Definition posix_sep (c : ascii) : bool := Ascii.eqb c "/"%char.
Definition nt_sep (c : ascii) : bool :=
  Ascii.eqb c "\"%char || Ascii.eqb c "/"%char.
Definition is_dot (c : ascii) : bool := Ascii.eqb c "."%char.

(** [rfind1 f i p] is [p.rfind(c)] shifted by one: 0 when no character
    satisfying [f] occurs in [p], else one more than the last index at
    which one does; [i] is the index of the head of [p]. *)
Fixpoint rfind1 (f : ascii -> bool) (i : nat) (p : list ascii) : nat :=
  match p with
  | [] => O
  | c :: p' =>
      match rfind1 f (S i) p' with
      | O => if f c then S i else O
      | r => r
      end
  end.

(** The [while] loop of [_splitext]: is there a character other than a dot at
    an index in [filenameIndex, dotIndex)? *)
Definition has_non_dot (p : list ascii) (filenameIndex dotIndex : nat) : bool :=
  existsb (fun c => negb (is_dot c))
          (firstn (dotIndex - filenameIndex) (skipn filenameIndex p)).

Definition splitext_chars (is_sep : ascii -> bool) (p : list ascii)
  : list ascii * list ascii :=
  let sepIndex1 := rfind1 is_sep 0 p in      (* sepIndex + 1 *)
  let dotIndex1 := rfind1 is_dot 0 p in      (* dotIndex + 1 *)
  if (sepIndex1 <? dotIndex1)%nat then
    let dotIndex := pred dotIndex1 in
    if has_non_dot p sepIndex1 dotIndex
    then (firstn dotIndex p, skipn dotIndex p)
    else (p, [])
  else (p, []).

Definition splitext (is_sep : ascii -> bool) (p : string) : string * string :=
  let '(base, ext) := splitext_chars is_sep (list_ascii_of_string p) in
  (string_of_list_ascii base, string_of_list_ascii ext).

(** ** The trace *)

(** What the program prints and what it asks of the media library. *)
Inductive event : Type :=
| PrintTooShort (num_segments : Z) (segment_duration : Q)      (* line 63 *)
| PrintReducing (num_segments : Z)                             (* line 65 *)
| PrintTrying (i : Z) (start_time end_time : Q)                (* line 73 *)
| PrintExtracted (i : Z) (start_time end_time : Q)             (* line 78 *)
| PrintSegmentError (i : Z) (e : exn)                          (* line 80 *)
| PrintNoValid                                                 (* line 84 *)
| PrintAudioWarning (audio_error : exn)                        (* line 118 *)
| PrintCreationError (e : exn)                                 (* line 131 *)
| CallSubclipped (start_time end_time : Q)
| CallWithDuration (clip : Clip) (d : Q)
| CallConcatenate (clips : list Clip) (method : string)
| CallAudioSubclip (a : Audio) (t0 t1 : Q)
| CallSetAudio (clip : Clip) (a : Audio)
| CallWriteVideofile (clip : Clip) (path codec audio_codec : string) (fps : Q)
| CallClose (clip : Clip).

(** ** A monad for raising and tracing *)

Module Py.

(** A computation yields an outcome and the events it produced. *)
Definition M (A : Type) : Type := outcome A * list event.

Definition ret {A} (a : A) : M A := (Return a, []).

Definition raise {A} (e : exn) : M A := (Raise e, []).

Definition bind {A B} (m : M A) (k : A -> M B) : M B :=
  match m with
  | (Raise e, t) => (Raise e, t)
  | (Return a, t) => let '(r, t') := k a in (r, t ++ t')
  end.

(** [print(...)] and a call of the library, each leaving its event. *)
Definition emit (ev : event) : M unit := (Return tt, [ev]).

Definition call {A} (ev : event) (r : outcome A) : M A := (r, [ev]).

(** [try: m except Exception as e: h e]. *)
Definition try_except {A} (m : M A) (h : exn -> M A) : M A :=
  match m with
  | (Raise e, t) => let '(r, t') := h e in (r, t ++ t')
  | (Return a, t) => (Return a, t)
  end.

(** [try: m finally: f]: [f] always runs; what [m] raised is raised again
    after it, unless [f] raises itself. *)
Definition try_finally {A} (m : M A) (f : M unit) : M A :=
  let '(r, t) := m in
  match f with
  | (Raise e, t') => (Raise e, t ++ t')
  | (Return _, t') => (r, t ++ t')
  end.

(** A list comprehension [[f x for x in xs]]: the first raise ends it. *)
Fixpoint comprehension {A B} (f : A -> M B) (xs : list A) : M (list B) :=
  match xs with
  | [] => ret []
  | x :: xs' => bind (f x) (fun y =>
                bind (comprehension f xs') (fun ys => ret (y :: ys)))
  end.

(** [for x in xs: acc = body x acc]. *)
Fixpoint for_in {A S} (xs : list A) (body : A -> S -> M S) (acc : S) : M S :=
  match xs with
  | [] => ret acc
  | x :: xs' => bind (body x acc) (for_in xs' body)
  end.

End Py.

Notation "x <- m ;; k" := (Py.bind m (fun x => k))
  (at level 61, m at next level, right associativity).
Notation "m ;;; k" := (Py.bind m (fun _ => k))
  (at level 61, right associativity).

(** ** Python's arithmetic on the embedded numbers *)

(** [x == 0] and [x < y]. *)
Definition is_zero (x : Q) : bool := Qeq_bool x 0.
Definition lt (x y : Q) : bool := negb (Qle_bool y x).

(** [x / y]: raises when the divisor is zero. *)
Definition truediv (x y : Q) : Py.M Q :=
  if is_zero y then Py.raise ZeroDivisionError else Py.ret (x / y).

(** [x // y]: the floor of the quotient, raises when the divisor is zero. *)
Definition floordiv (x y : Q) : Py.M Q :=
  if is_zero y then Py.raise ZeroDivisionError
  else Py.ret (inject_Z (Qfloor (x / y))).

(** [int(x)] truncates towards zero. *)
Definition int (x : Q) : Z := Z.quot (Qnum x) (Zpos (Qden x)).

(** [range(n)]: empty when [n <= 0]. *)
Definition range (n : Z) : list Z := map Z.of_nat (seq 0 (Z.to_nat n)).

(** ** The summarizer object *)

Record VideoSummarizer : Type := {
  input_path : string;
  output_path : string;
  video : Video;
  self_fps : Q;
  width : Z;
  height : Z;
  total_duration : Q
}.

(** Python's truth value of an optional string: [None] and [""] are falsy. *)
Definition truthy (s : option string) : bool :=
  match s with
  | None => false
  | Some s' => negb (String.eqb s' "")
  end.

Section Program.

(** The platform's path separators and the media library. *)
Variable is_sep : ascii -> bool.
Variable mp : Moviepy.

(** [_generate_output_path] reads only [self.input_path]. *)
Definition _generate_output_path (self_input_path : string) : string :=
  let '(base, ext) := splitext is_sep self_input_path in
  (base ++ "_summary" ++ ext)%string.

(** [output_path or self._generate_output_path()]. *)
Definition output_path_or_default (self_input_path : string)
           (out : option string) : string :=
  match out with
  | Some s => if truthy out then s else _generate_output_path self_input_path
  | None => _generate_output_path self_input_path
  end.

(** [VideoSummarizer.__init__]; [out = None] is the omitted argument. *)
Definition __init__ (inp : string) (out : option string)
  : outcome VideoSummarizer :=
  let self_output_path := output_path_or_default inp out in
  match VideoFileClip mp inp with
  | Raise e =>
      Raise (ValueError ("Error loading video file: " ++ exn_str e))
  | Return v =>
      let self := {| input_path := inp;
                     output_path := self_output_path;
                     video := v;
                     self_fps := fps v;
                     width := fst (size v);
                     height := snd (size v);
                     total_duration := duration v |} in
      if is_zero (total_duration self)
      then Raise (ValueError "Invalid video file or zero duration detected.")
      else Return self
  end.

(** *** [extract_video_segments] *)

(** The body of the loop, lines 71-81: one range is computed, its slice
    requested, and the clip appended unless the library raised. *)
Definition extract_one (self : VideoSummarizer)
           (segment_interval segment_duration : Q)
           (i : Z) (video_clips : list Clip) : Py.M (list Clip) :=
  let start_time := inject_Z i * segment_interval in
  let end_time := Qmin (start_time + segment_duration) (total_duration self) in
  Py.emit (PrintTrying i start_time end_time) ;;;
  Py.try_except
    (video_clip <- Py.call (CallSubclipped start_time end_time)
                           (subclipped (video self) start_time end_time) ;;
     Py.emit (PrintExtracted i start_time end_time) ;;;
     Py.ret (video_clips ++ [video_clip]))
    (fun e => Py.emit (PrintSegmentError i e) ;;; Py.ret video_clips).

(** Lines 60-65: the count is reduced when the source is too short. *)
Definition effective_count (self : VideoSummarizer)
           (num_segments : Z) (segment_duration : Q) : Py.M Z :=
  let total_required_duration := inject_Z num_segments * segment_duration in
  if lt (total_duration self) total_required_duration then
    Py.emit (PrintTooShort num_segments segment_duration) ;;;
    q <- floordiv (total_duration self) segment_duration ;;
    let num_segments := int q in
    Py.emit (PrintReducing num_segments) ;;;
    Py.ret num_segments
  else Py.ret num_segments.

Definition extract_video_segments (self : VideoSummarizer)
           (num_segments : Z) (segment_duration : Q) : Py.M (list Clip) :=
  if is_zero (total_duration self) then
    Py.raise (ValueError "Cannot extract segments: video duration is zero.")
  else
    num_segments <- effective_count self num_segments segment_duration ;;
    d <- truediv (total_duration self) (inject_Z num_segments) ;;
    let segment_interval := Qmax 1 d in
    video_clips <- Py.for_in (range num_segments)
                     (extract_one self segment_interval segment_duration) [] ;;
    (match video_clips with
     | [] => Py.emit PrintNoValid
     | _ => Py.ret tt
     end) ;;;
    Py.ret video_clips.

(** *** [create_summary_video] *)

(** Lines 113-118: the audio of the source, trimmed and attached; any
    raise leaves [final_clip] as it was. *)
Definition add_audio (self : VideoSummarizer) (summary_duration : Q)
           (final_clip : Clip) : Py.M Clip :=
  Py.try_except
    (match audio (video self) with
     | Some a =>
         audio' <- Py.call (CallAudioSubclip a 0 summary_duration)
                           (audio_subclip (video self) a 0 summary_duration) ;;
         Py.call (CallSetAudio final_clip audio')
                 (set_audio mp final_clip audio')
     | None => Py.ret final_clip
     end)
    (fun audio_error =>
       Py.emit (PrintAudioWarning audio_error) ;;; Py.ret final_clip).

(** The rescaling of one clip, line 107. *)
Definition rescale (adjusted_duration : Q) (clip : Clip) : Py.M Clip :=
  Py.call (CallWithDuration clip adjusted_duration)
          (with_duration mp clip adjusted_duration).

(** Lines 121-128: the clip is encoded, and closed when the encoder
    returned. *)
Definition encode_and_close (self : VideoSummarizer) (final_clip : Clip)
  : Py.M unit :=
  Py.call (CallWriteVideofile final_clip (output_path self)
                              "libx264" "aac" (self_fps self))
          (write_videofile mp final_clip (output_path self)
                           "libx264" "aac" (self_fps self)) ;;;
  Py.emit (CallClose final_clip).

(** Lines 106-128, the body of the outer [try]. *)
Definition compose_and_write (self : VideoSummarizer)
           (video_segments : list Clip) (summary_duration adjusted_duration : Q)
  : Py.M unit :=
  clips_with_duration <-
    Py.comprehension (rescale adjusted_duration) video_segments ;;
  final_clip <- Py.call (CallConcatenate clips_with_duration "compose")
                        (concatenate_videoclips mp clips_with_duration "compose") ;;
  final_clip <- add_audio self summary_duration final_clip ;;
  encode_and_close self final_clip.

(** Lines 135-136, the [finally] clause.  Closing a clip is taken never to
    raise. *)
Definition close_all (video_segments : list Clip) : Py.M unit :=
  Py.for_in video_segments (fun clip _ => Py.emit (CallClose clip)) tt.

Definition create_summary_video (self : VideoSummarizer)
           (video_segments : list Clip) (summary_duration : Q) : Py.M string :=
  let total_segments := Z.of_nat (List.length video_segments) in
  if (total_segments =? 0)%Z then
    Py.raise (ValueError "No video segments found. Cannot create summary.")
  else
    adjusted_duration <- truediv summary_duration (inject_Z total_segments) ;;
    Py.try_finally
      (Py.try_except
         (compose_and_write self video_segments summary_duration
                            adjusted_duration)
         (fun e => Py.emit (PrintCreationError e)))
      (close_all video_segments) ;;;
    Py.ret (output_path self).

End Program.

(** ** What a trace shows *)

(** The sampling plan: the ranges whose slices were requested, in order. *)
Definition requested_ranges (t : list event) : list (Q * Q) :=
  flat_map (fun ev => match ev with
                      | CallSubclipped s e => [(s, e)]
                      | _ => []
                      end) t.

(** The reductions of the count that were announced (line 65). *)
Definition plan_reduced (t : list event) : list Z :=
  flat_map (fun ev => match ev with
                      | PrintReducing n => [n]
                      | _ => []
                      end) t.

(** The range the loop computes at index [i] (lines 71-72). *)
Definition segment_range (self : VideoSummarizer)
           (segment_interval segment_duration : Q) (i : Z) : Q * Q :=
  (inject_Z i * segment_interval,
   Qmin (inject_Z i * segment_interval + segment_duration) (total_duration self)).

(** The handles the library handed out in answer to the calls of a trace. *)
Definition returned_handle (mp : Moviepy) (ev : event) : list Clip :=
  match ev with
  | CallWithDuration c d =>
      match with_duration mp c d with Return h => [h] | Raise _ => [] end
  | CallConcatenate cs m =>
      match concatenate_videoclips mp cs m with Return h => [h] | Raise _ => [] end
  | CallSetAudio c a =>
      match set_audio mp c a with Return h => [h] | Raise _ => [] end
  | _ => []
  end.

Definition acquired (mp : Moviepy) (t : list event) : list Clip :=
  flat_map (returned_handle mp) t.

(** The handles that were closed. *)
Definition released (t : list event) : list Clip :=
  flat_map (fun ev => match ev with
                      | CallClose c => [c]
                      | _ => []
                      end) t.

(** The handles, given or acquired, that were never closed. *)
Definition leaked (mp : Moviepy) (inputs : list Clip) (t : list event) : list Clip :=
  filter (fun h => negb (existsb (Nat.eqb h) (released t)))
         (inputs ++ acquired mp t).

(** The files written. *)
Definition written (t : list event) : list string :=
  flat_map (fun ev => match ev with
                      | CallWriteVideofile _ path _ _ _ => [path]
                      | _ => []
                      end) t.

(** The rescalings asked of the library: the clip and the duration. *)
Definition rescale_requests (t : list event) : list (Clip * Q) :=
  flat_map (fun ev => match ev with
                      | CallWithDuration c d => [(c, d)]
                      | _ => []
                      end) t.

(** ** Sample sources and libraries *)

(** A source of duration [D] whose slices all succeed; the handle of a slice
    is the whole part of its start.  [trim] is what trimming its audio
    answers. *)
Definition sample_video (D : Q) (a : option Audio) (trim : outcome Audio) : Video :=
  {| fps := 30;
     size := (640%Z, 480%Z);
     duration := D;
     audio := a;
     subclipped := fun s _ => Return (Z.to_nat (Qfloor s));
     audio_subclip := fun _ _ _ => trim |}.

Definition sample_self (D : Q) (a : option Audio) (trim : outcome Audio)
  : VideoSummarizer :=
  {| input_path := "a/b.mp4";
     output_path := "a/b_summary.mp4";
     video := sample_video D a trim;
     self_fps := 30;
     width := 640;
     height := 480;
     total_duration := D |}.

(** A library which hands out fresh handles: a rescaled clip is a new
    handle, and so are the concatenation and the clip with audio.  [attach]
    and [wr] are what attaching audio and encoding answer. *)
Definition sample_mp (attach : bool) (wr : outcome unit) : Moviepy :=
  {| VideoFileClip := fun _ => Return (sample_video 100 None (Return 8%nat));
     with_duration := fun c _ => Return (100 + c)%nat;
     concatenate_videoclips := fun _ _ => Return 1000%nat;
     set_audio := fun c _ => if attach then Return (2000 + c)%nat
                             else Raise (BackendError "no audio");
     write_videofile := fun _ _ _ _ _ => wr |}.

(** ** The driver *)

(** What a run of [main] shows: the events of the methods it calls, the
    prints of the constructor, and its own reports. *)
Inductive main_event : Type :=
| Within (ev : event)
| PrintVideoDuration (d : Q)                                   (* line 29 *)
| PrintVideoFPS (f : Q)                                        (* line 30 *)
| PrintVideoSize (w h : Z)                                     (* line 31 *)
| PrintSummaryCreated (summary_path : string)                  (* line 159 *)
| PrintNoSegments                                              (* line 161 *)
| PrintErrorOccurred (e : exn).                                (* lines 164-166 *)

(** The literal of line 143. *)
Definition input_video_path : string :=
  "C:\jvn_codes\sen\video-summary\videoplayback.mp4".

(** Lines 29-31: printed by the constructor once the video is loaded,
    before the duration is tested. *)
Definition constructor_prints (mp : Moviepy) (inp : string) : list main_event :=
  match VideoFileClip mp inp with
  | Raise _ => []
  | Return v => [PrintVideoDuration (duration v);
                 PrintVideoFPS (fps v);
                 PrintVideoSize (fst (size v)) (snd (size v))]
  end.

(** [main], lines 141-166: every exception is caught and reported at line
    164, so all a run leaves is what it printed and asked. *)
Definition main (is_sep : ascii -> bool) (mp : Moviepy) : list main_event :=
  constructor_prints mp input_video_path
  ++ match __init__ is_sep mp input_video_path None with
     | Raise e => [PrintErrorOccurred e]
     | Return summarizer =>
         match extract_video_segments summarizer 5 3 with
         | (Raise e, t) => map Within t ++ [PrintErrorOccurred e]
         | (Return [], t) => map Within t ++ [PrintNoSegments]
         | (Return video_segments, t) =>
             map Within t
             ++ match create_summary_video mp summarizer video_segments 30 with
                | (Raise e, t') => map Within t' ++ [PrintErrorOccurred e]
                | (Return summary_path, t') =>
                    map Within t' ++ [PrintSummaryCreated summary_path]
                end
         end
     end.

(** The reports of [main] in a run: lines 159, 161 and 164. *)
Definition reports (t : list main_event) : list main_event :=
  filter (fun ev => match ev with
                    | PrintSummaryCreated _ | PrintNoSegments
                    | PrintErrorOccurred _ => true
                    | _ => false
                    end) t.

(** The summarizer the constructor builds around a loaded video when no
    output path is passed (lines 15-27). *)
Definition summarizer_of (is_sep : ascii -> bool) (inp : string) (v : Video)
  : VideoSummarizer :=
  {| input_path := inp;
     output_path := _generate_output_path is_sep inp;
     video := v;
     self_fps := fps v;
     width := fst (size v);
     height := snd (size v);
     total_duration := duration v |}.

(** What the methods [main] called printed and asked, in a run. *)
Definition inner (t : list main_event) : list event :=
  flat_map (fun ev => match ev with
                      | Within e => [e]
                      | _ => []
                      end) t.

(** ** More of what a trace shows *)

(** The clips the library hands out for a list of ranges: one per range it
    honours, in order. *)
Definition honoured (v : Video) (ranges : list (Q * Q)) : list Clip :=
  flat_map (fun r => match subclipped v (fst r) (snd r) with
                     | Return c => [c]
                     | Raise _ => []
                     end) ranges.

(** The slices that were reported as failed (line 80). *)
Definition segment_errors (t : list event) : list (Z * exn) :=
  flat_map (fun ev => match ev with
                      | PrintSegmentError i e => [(i, e)]
                      | _ => []
                      end) t.

(** The encodings asked of the library, with all their arguments. *)
Definition encode_requests (t : list event)
  : list (Clip * string * string * string * Q) :=
  flat_map (fun ev => match ev with
                      | CallWriteVideofile c path codec audio_codec f =>
                          [(c, path, codec, audio_codec, f)]
                      | _ => []
                      end) t.

(** The calls and the warning of the audio stage. *)
Definition audio_events (t : list event) : list event :=
  filter (fun ev => match ev with
                    | CallAudioSubclip _ _ _ | CallSetAudio _ _
                    | PrintAudioWarning _ => true
                    | _ => false
                    end) t.

(** A library that refuses to rescale the clip [bad] and answers [concat]
    to a concatenation. *)
Definition faulty_mp (bad : Clip) (concat : outcome Clip) : Moviepy :=
  {| VideoFileClip := fun _ => Raise (BackendError "file not found");
     with_duration := fun c _ => if Nat.eqb c bad
                                 then Raise (BackendError "cannot rescale")
                                 else Return (100 + c)%nat;
     concatenate_videoclips := fun _ _ => concat;
     set_audio := fun c _ => Return (2000 + c)%nat;
     write_videofile := fun _ _ _ _ _ => Return tt |}.

(** A source whose slices starting at or after [limit] are refused. *)
Definition partial_video (D limit : Q) : Video :=
  {| fps := 30;
     size := (640%Z, 480%Z);
     duration := D;
     audio := None;
     subclipped := fun s _ => if lt s limit
                              then Return (Z.to_nat (Qfloor s))
                              else Raise (BackendError "cannot slice");
     audio_subclip := fun _ _ _ => Raise (BackendError "no audio") |}.

Definition partial_self (D limit : Q) : VideoSummarizer :=
  {| input_path := "a/b.mp4";
     output_path := "a/b_summary.mp4";
     video := partial_video D limit;
     self_fps := 30;
     width := 640;
     height := 480;
     total_duration := D |}.

(** A library that loads, as any path, the sample source of duration [D]
    with the audio [a]. *)
Definition loading_mp (D : Q) (a : option Audio) (wr : outcome unit) : Moviepy :=
  {| VideoFileClip := fun _ => Return (sample_video D a (Return 8%nat));
     with_duration := fun c _ => Return (100 + c)%nat;
     concatenate_videoclips := fun _ _ => Return 1000%nat;
     set_audio := fun c _ => Return (2000 + c)%nat;
     write_videofile := fun _ _ _ _ _ => wr |}.

(** ** The monad's equations *)

Lemma bind_Raise {A B} (e : exn) (t : list event) (k : A -> Py.M B) :
  Py.bind (Raise e, t) k = (Raise e, t).
Proof. reflexivity. Qed.

Lemma bind_Return {A B} (a : A) (t : list event) (k : A -> Py.M B) :
  Py.bind (Return a, t) k = (fst (k a), t ++ snd (k a)).
Proof. unfold Py.bind. now destruct (k a). Qed.

(** ** Arithmetic facts *)

Lemma is_zero_true (x : Q) : is_zero x = true <-> x == 0.
Proof. unfold is_zero. apply Qeq_bool_iff. Qed.

Lemma is_zero_false (x : Q) : is_zero x = false <-> ~ x == 0.
Proof.
  rewrite <- is_zero_true. destruct (is_zero x); split; congruence.
Qed.

Lemma lt_true (x y : Q) : lt x y = true <-> x < y.
Proof.
  unfold lt. rewrite negb_true_iff, <- not_true_iff_false, Qle_bool_iff.
  split; [apply Qnot_le_lt | apply Qlt_not_le].
Qed.

Lemma lt_false (x y : Q) : lt x y = false <-> y <= x.
Proof.
  unfold lt. rewrite negb_false_iff. apply Qle_bool_iff.
Qed.

Lemma int_inject_Z (z : Z) : int (inject_Z z) = z.
Proof. unfold int. simpl. apply Z.quot_1_r. Qed.

Lemma inject_Z_pos (z : Z) : (0 < z)%Z -> 0 < inject_Z z.
Proof. intros H. change 0 with (inject_Z 0). now rewrite <- Zlt_Qlt. Qed.

Lemma inject_Z_nonzero (z : Z) : z <> 0%Z -> is_zero (inject_Z z) = false.
Proof.
  intros H. apply is_zero_false. intros E.
  apply H. unfold Qeq in E. simpl in E. lia.
Qed.

(** [D / n >= s] as soon as [n * s <= D], for a positive [n]. *)
Lemma div_ge (D s : Q) (n : Z) :
  (0 < n)%Z -> inject_Z n * s <= D -> s <= D / inject_Z n.
Proof.
  intros Hn H. apply Qle_shift_div_l; [now apply inject_Z_pos|].
  now rewrite Qmult_comm.
Qed.

(** The floor of [D / s] times [s] does not exceed [D]. *)
Lemma floor_times_le (D s : Q) :
  0 < s -> inject_Z (Qfloor (D / s)) * s <= D.
Proof.
  intros Hs. pose proof (Qfloor_le (D / s)) as H.
  apply (Qmult_le_r _ _ s Hs) in H.
  assert (E : D / s * s == D).
  { rewrite Qmult_comm. apply Qmult_div_r. intros E. rewrite E in Hs. lra. }
  now rewrite E in H.
Qed.

Lemma Qmax_1_ge (x : Q) : 1 <= Qmax 1 x.
Proof. apply Q.le_max_l. Qed.

Lemma Qmax_1_div (x : Q) : 1 <= x -> Qmax 1 x == x.
Proof. intros H. now apply Q.max_r. Qed.

(** ** The segment planner *)

Section Planner.

Variable self : VideoSummarizer.

Local Abbreviation D := (total_duration self).

(** One turn of the loop never raises; it requests exactly one slice. *)
Lemma extract_one_run (iv seg : Q) (i : Z) (acc : list Clip) :
  exists clips t,
    extract_one self iv seg i acc = (Return clips, t)
    /\ requested_ranges t = [segment_range self iv seg i]
    /\ plan_reduced t = [].
Proof.
  unfold extract_one, segment_range, Py.try_except, Py.bind, Py.call,
    Py.emit, Py.ret.
  destruct (subclipped (video self) (inject_Z i * iv)
              (Qmin (inject_Z i * iv + seg) (total_duration self))) as [e|c];
    cbn [app requested_ranges plan_reduced flat_map]; eauto.
Qed.

Lemma requested_ranges_app (t1 t2 : list event) :
  requested_ranges (t1 ++ t2) = requested_ranges t1 ++ requested_ranges t2.
Proof. apply flat_map_app. Qed.

Lemma plan_reduced_app (t1 t2 : list event) :
  plan_reduced (t1 ++ t2) = plan_reduced t1 ++ plan_reduced t2.
Proof. apply flat_map_app. Qed.

(** The whole loop: one request per index, in order, and no raise. *)
Lemma loop_run (iv seg : Q) (idx : list Z) :
  forall acc, exists clips t,
    Py.for_in idx (extract_one self iv seg) acc = (Return clips, t)
    /\ requested_ranges t = map (segment_range self iv seg) idx
    /\ plan_reduced t = [].
Proof.
  induction idx as [|i idx IH]; intros acc; simpl.
  - exists acc, []. auto.
  - destruct (extract_one_run iv seg i acc) as (c1 & t1 & E1 & R1 & P1).
    destruct (IH c1) as (c2 & t2 & E2 & R2 & P2).
    exists c2, (t1 ++ t2). rewrite E1. cbn. rewrite E2.
    rewrite requested_ranges_app, plan_reduced_app, R1, R2, P1, P2. auto.
Qed.

(** Past the count and the interval, the planner returns. *)
Lemma extract_video_segments_run (n : Z) (seg : Q) (n' : Z) (t0 : list event) :
  ~ D == 0 ->
  effective_count self n seg = (Return n', t0) ->
  n' <> 0%Z ->
  exists clips t,
    extract_video_segments self n seg = (Return clips, t0 ++ t)
    /\ requested_ranges t
       = map (segment_range self (Qmax 1 (D / inject_Z n')) seg) (range n')
    /\ plan_reduced t = [].
Proof.
  intros HD HE Hn. unfold extract_video_segments.
  apply is_zero_false in HD. rewrite HD, HE. cbn.
  unfold truediv. rewrite (inject_Z_nonzero _ Hn). cbn.
  destruct (loop_run (Qmax 1 (D / inject_Z n')) seg (range n') [])
    as (clips & t & E & R & P).
  rewrite E. cbn.
  destruct clips; cbn.
  - exists [], (t ++ [PrintNoValid]).
    rewrite requested_ranges_app, plan_reduced_app, R, P.
    cbn. rewrite app_nil_r. auto.
  - exists (c :: clips), t. rewrite ?app_nil_r. auto.
Qed.

(** Lines 60-65 when the source is long enough: the count is kept and
    nothing is printed. *)
Lemma effective_count_enough (n : Z) (seg : Q) :
  inject_Z n * seg <= D -> effective_count self n seg = (Return n, []).
Proof.
  intros H. unfold effective_count.
  apply lt_false in H. now rewrite H.
Qed.

(** Lines 60-65 when it is too short: the count becomes the floor of
    [D / seg], and the reduction is announced with that value. *)
Lemma effective_count_short (n : Z) (seg : Q) :
  D < inject_Z n * seg -> ~ seg == 0 ->
  effective_count self n seg
  = (Return (Qfloor (D / seg)),
     [PrintTooShort n seg; PrintReducing (Qfloor (D / seg))]).
Proof.
  intros H Hs. unfold effective_count.
  apply lt_true in H. rewrite H. unfold floordiv.
  apply is_zero_false in Hs. rewrite Hs. cbn.
  now rewrite int_inject_Z.
Qed.

End Planner.


(** ** Facts on ranges *)

Lemma In_range (n i : Z) : In i (range n) <-> (0 <= i < n)%Z.
Proof.
  unfold range. rewrite in_map_iff. split.
  - intros (k & <- & Hk). apply in_seq in Hk. lia.
  - intros H. exists (Z.to_nat i). split; [lia|]. apply in_seq. lia.
Qed.

Lemma length_range (n : Z) : List.length (range n) = Z.to_nat n.
Proof. unfold range. now rewrite length_map, length_seq. Qed.

Lemma nth_range (n i d : Z) :
  (0 <= i < n)%Z -> nth (Z.to_nat i) (range n) d = i.
Proof.
  intros H. unfold range.
  rewrite nth_indep with (d' := Z.of_nat 0) by (rewrite length_map, length_seq; lia).
  rewrite map_nth, seq_nth by lia. lia.
Qed.

(** A range placed at index [i < n] with the interval [D / n] lies inside
    the source and is not empty. *)
Lemma segment_range_within (self : VideoSummarizer) (iv seg : Q) (n i : Z) :
  0 < total_duration self -> 0 < seg -> (0 <= i < n)%Z ->
  iv == total_duration self / inject_Z n ->
  let '(s, e) := segment_range self iv seg i in
  0 <= s /\ s < e /\ e <= total_duration self.
Proof.
  intros HD Hs Hi Hiv. unfold segment_range.
  set (D := total_duration self) in *.
  assert (Hn : 0 < inject_Z n) by (apply inject_Z_pos; lia).
  assert (Hq : 0 < D / inject_Z n) by (apply Qlt_shift_div_l; lra).
  assert (Hi0 : 0 <= inject_Z i).
  { change 0 with (inject_Z 0). rewrite <- Zle_Qle. lia. }
  assert (Hin : inject_Z i < inject_Z n) by (rewrite <- Zlt_Qlt; lia).
  assert (E : inject_Z n * (D / inject_Z n) == D).
  { apply Qmult_div_r. lra. }
  assert (Hlt : inject_Z i * iv < D).
  { rewrite Hiv.
    apply Qlt_le_trans with (inject_Z n * (D / inject_Z n)); [|rewrite E; lra].
    apply Qmult_lt_r; assumption. }
  assert (H0 : 0 <= inject_Z i * iv).
  { rewrite Hiv. apply Qmult_le_0_compat; lra. }
  split; [exact H0|]. split.
  - apply Q.min_glb_lt; lra.
  - apply Q.le_min_r.
Qed.

(** The count and the reduction leave no request in the trace. *)
Lemma effective_count_outcomes (self : VideoSummarizer) (n : Z) (seg : Q) :
  (exists n' t0, effective_count self n seg = (Return n', t0)
                 /\ requested_ranges t0 = [])
  \/ (exists t0, effective_count self n seg = (Raise ZeroDivisionError, t0)).
Proof.
  unfold effective_count, floordiv.
  destruct (lt (total_duration self) (inject_Z n * seg)).
  - destruct (is_zero seg); cbn.
    + right. eexists. reflexivity.
    + left. do 2 eexists. split; reflexivity.
  - left. do 2 eexists. split; reflexivity.
Qed.

(** A count of zero stops the planner at the division of line 67. *)
Lemma extract_video_segments_zero_count
      (self : VideoSummarizer) (n : Z) (seg : Q) (t0 : list event) :
  ~ total_duration self == 0 ->
  effective_count self n seg = (Return 0%Z, t0) ->
  extract_video_segments self n seg = (Raise ZeroDivisionError, t0).
Proof.
  intros HD HE. unfold extract_video_segments.
  apply is_zero_false in HD. rewrite HD, HE. cbn. now rewrite app_nil_r.
Qed.

(** What the reduction raises, the planner raises. *)
Lemma extract_video_segments_count_raises
      (self : VideoSummarizer) (n : Z) (seg : Q) (e : exn) (t0 : list event) :
  ~ total_duration self == 0 ->
  effective_count self n seg = (Raise e, t0) ->
  extract_video_segments self n seg = (Raise e, t0).
Proof.
  intros HD HE. unfold extract_video_segments.
  apply is_zero_false in HD. now rewrite HD, HE.
Qed.

(** With a source that is not of zero duration the planner returns a list
    of clips or raises [ZeroDivisionError]; nothing else. *)
Lemma extract_video_segments_outcomes
      (self : VideoSummarizer) (n : Z) (seg : Q) :
  ~ total_duration self == 0 ->
  (exists clips t, extract_video_segments self n seg = (Return clips, t))
  \/ (exists t, extract_video_segments self n seg = (Raise ZeroDivisionError, t)).
Proof.
  intros HD.
  destruct (effective_count_outcomes self n seg)
    as [(n' & t0 & HE & _) | (t0 & HE)].
  - destruct (Z.eq_dec n' 0) as [->|Hn].
    + right. exists t0. now apply extract_video_segments_zero_count.
    + left.
      destruct (extract_video_segments_run self n seg n' t0 HD HE Hn)
        as (clips & t & E & _).
      eauto.
  - right. exists t0. now apply extract_video_segments_count_raises.
Qed.

(** Long enough a source: exactly the requested number of ranges, and no
    reduction announced. *)
Lemma plan_exact_when_long_enough
      (self : VideoSummarizer) (n : Z) (seg : Q) :
  0 < total_duration self -> (0 < n)%Z -> 0 < seg ->
  inject_Z n * seg <= total_duration self ->
  exists clips t,
    extract_video_segments self n seg = (Return clips, t)
    /\ List.length (requested_ranges t) = Z.to_nat n
    /\ plan_reduced t = [].
Proof.
  intros HD Hn Hs H.
  assert (HD' : ~ total_duration self == 0) by lra.
  destruct (extract_video_segments_run self n seg n []
              HD' (effective_count_enough self n seg H)) as (clips & t & E & R & P);
    [lia|].
  exists clips, t. cbn in E. rewrite R, length_map, length_range. auto.
Qed.

(** Too short a source, but long enough for one segment: the count is the
    floor of [D / seg], announced as such. *)
Lemma plan_reduced_when_too_short
      (self : VideoSummarizer) (n : Z) (seg : Q) :
  0 < total_duration self -> (0 < n)%Z -> 0 < seg ->
  total_duration self < inject_Z n * seg ->
  (1 <= Qfloor (total_duration self / seg))%Z ->
  exists clips t,
    extract_video_segments self n seg = (Return clips, t)
    /\ List.length (requested_ranges t)
       = Z.to_nat (Qfloor (total_duration self / seg))
    /\ plan_reduced t = [Qfloor (total_duration self / seg)].
Proof.
  intros HD Hn Hs H H1.
  assert (HD' : ~ total_duration self == 0) by lra.
  assert (Hs' : ~ seg == 0) by lra.
  destruct (extract_video_segments_run self n seg _ _
              HD' (effective_count_short self n seg H Hs')) as (clips & t & E & R & P);
    [lia|].
  eexists clips, _. split; [exact E|].
  rewrite requested_ranges_app, plan_reduced_app, R, P, length_app,
    length_map, length_range.
  split; reflexivity.
Qed.

(** Once there is a segment to place, the source divided by the count is
    at least the segment duration. *)
Lemma quotient_ge_segment_duration
      (self : VideoSummarizer) (n : Z) (seg : Q) (n' : Z) (t0 : list event) :
  effective_count self n seg = (Return n', t0) ->
  (1 <= n')%Z -> 0 < seg ->
  seg <= total_duration self / inject_Z n'.
Proof.
  intros HE Hn Hs. set (D := total_duration self) in *.
  destruct (lt D (inject_Z n * seg)) eqn:L.
  - apply lt_true in L.
    assert (Z0 : ~ seg == 0) by lra.
    rewrite (effective_count_short self n seg L Z0) in HE.
    assert (En : Qfloor (D / seg) = n').
    { apply (f_equal fst) in HE. cbn [fst] in HE. now injection HE. }
    apply div_ge; [lia|]. rewrite <- En. now apply floor_times_le.
  - apply lt_false in L.
    rewrite (effective_count_enough self n seg L) in HE.
    assert (En : n = n').
    { apply (f_equal fst) in HE. cbn [fst] in HE. now injection HE. }
    subst n'. apply div_ge; [lia|assumption].
Qed.

(** The interval is never below the segment duration once there is a
    segment to place. *)
Lemma interval_ge_segment_duration
      (self : VideoSummarizer) (n : Z) (seg : Q) (n' : Z) (t0 : list event) :
  effective_count self n seg = (Return n', t0) ->
  (1 <= n')%Z ->
  seg <= Qmax 1 (total_duration self / inject_Z n').
Proof.
  intros HE Hn.
  destruct (Qlt_le_dec 0 seg) as [Hs|Hs].
  - apply Qle_trans with (total_duration self / inject_Z n'); [|apply Q.le_max_r].
    now apply (quotient_ge_segment_duration self n seg n' t0).
  - apply Qle_trans with 1; [lra|apply Q.le_max_l].
Qed.

(** ** The claims on the segment planner *)

(** C1, as the claim states it, fails: a source of 2.5 s asked for 4
    segments of 0.5 s is long enough for no reduction, the interval is
    floored at 1, and the fourth range starts at 3, past the end of the
    source, with its end clamped to 2.5. *)
Lemma plan_range_past_source_end :
  let self := sample_self (5 # 2) None (Return 8%nat) in
  0 < total_duration self /\ (0 < 4)%Z /\ 0 < 1 # 2
  /\ (exists clips, fst (extract_video_segments self 4 (1 # 2)) = Return clips)
  /\ In (3, 5 # 2)
        (requested_ranges (snd (extract_video_segments self 4 (1 # 2))))
  /\ ~ (3 < 5 # 2)
  /\ ~ (3 <= total_duration self).
Proof.
  cbv zeta. repeat split.
  - eexists. vm_compute. reflexivity.
  - vm_compute. do 3 right. left. reflexivity.
  - intros H. discriminate H.
  - intros H. apply H. reflexivity.
Qed.

(** C1, amended: when the source duration and the requested count are
    positive and the segment duration is at least 1 (the signature declares
    it an [int]), every range of the plan satisfies
    [0 <= start < end <= total_duration]. *)
Theorem plan_ranges_within_source
        (self : VideoSummarizer) (num_segments : Z) (segment_duration : Q)
        (clips : list Clip) (t : list event) :
  0 < total_duration self -> (0 < num_segments)%Z -> 1 <= segment_duration ->
  extract_video_segments self num_segments segment_duration = (Return clips, t) ->
  forall start_time end_time,
    In (start_time, end_time) (requested_ranges t) ->
    0 <= start_time /\ start_time < end_time /\ end_time <= total_duration self.
Proof.
  intros HD Hn Hs Hrun s e Hin.
  assert (HD' : ~ total_duration self == 0) by lra.
  destruct (effective_count_outcomes self num_segments segment_duration)
    as [(n' & t0 & HE & R0) | (t0 & HE)].
  - destruct (Z.eq_dec n' 0) as [->|Hn'].
    + rewrite (extract_video_segments_zero_count _ _ _ _ HD' HE) in Hrun.
      discriminate.
    + destruct (extract_video_segments_run _ _ _ _ _ HD' HE Hn')
        as (clips' & t' & E & R & _).
      rewrite E in Hrun. injection Hrun as _ <-.
      rewrite requested_ranges_app, R0, R in Hin. cbn [app] in Hin.
      apply in_map_iff in Hin. destruct Hin as (i & Hi & Hr).
      apply In_range in Hr.
      assert (Hq : segment_duration <= total_duration self / inject_Z n').
      { apply (quotient_ge_segment_duration self num_segments _ n' t0);
          [assumption|lia|lra]. }
      pose proof (segment_range_within self
                    (Qmax 1 (total_duration self / inject_Z n'))
                    segment_duration n' i HD) as W.
      rewrite Hi in W. apply W; [lra|assumption|].
      apply Qmax_1_div. lra.
  - rewrite (extract_video_segments_count_raises _ _ _ _ _ HD' HE) in Hrun.
    discriminate.
Qed.

Lemma plan_ranges_within_source_witness :
  0 <= 10 # 3 /\ 10 # 3 < 19 # 3
  /\ 19 # 3 <= total_duration (sample_self 10 None (Return 8%nat)).
Proof.
  apply (plan_ranges_within_source
           (sample_self 10 None (Return 8%nat)) 10 3 [0; 3; 6]%nat
           (snd (extract_video_segments
                   (sample_self 10 None (Return 8%nat)) 10 3))).
  - reflexivity.
  - reflexivity.
  - discriminate.
  - vm_compute. reflexivity.
  - vm_compute. right. left. reflexivity.
Defined.

(** C2: the claim is right about the count and the warning (see
    [plan_exact_when_long_enough] and [plan_reduced_when_too_short]), but
    when the reduced count is 0 the planner does not return an empty plan:
    a source of 2 s asked for 10 segments of 3 s announces the reduction to
    0 and then raises [ZeroDivisionError] at the division of line 67. *)
Theorem too_short_source_raises :
  let self := sample_self 2 None (Return 8%nat) in
  0 < total_duration self /\ (0 < 10)%Z /\ 0 < 3
  /\ total_duration self < inject_Z 10 * 3
  /\ Qfloor (total_duration self / 3) = 0%Z
  /\ extract_video_segments self 10 3
     = (Raise ZeroDivisionError, [PrintTooShort 10 3; PrintReducing 0]).
Proof.
  cbv zeta. repeat split.
Qed.

(** C3: once the count is settled at [n' >= 1], the planner returns; its
    plan has [n'] ranges, none rejected; the i-th starts at
    [i * max(1, total_duration / n')], an interval in which the segment
    duration does not occur, and ends at the minimum of its own start plus
    the segment duration and the source duration, whatever its neighbours;
    the starts increase strictly.  In exact arithmetic the interval is
    never below the segment duration, so the overlap the claim allows for
    does not arise. *)
Theorem plan_starts_uniform
        (self : VideoSummarizer) (num_segments : Z) (segment_duration : Q)
        (n' : Z) (t0 : list event) :
  ~ total_duration self == 0 ->
  effective_count self num_segments segment_duration = (Return n', t0) ->
  (1 <= n')%Z ->
  exists clips t,
    extract_video_segments self num_segments segment_duration = (Return clips, t)
    /\ List.length (requested_ranges t) = Z.to_nat n'
    /\ (forall i, (0 <= i < n')%Z ->
          nth (Z.to_nat i) (requested_ranges t) (0, 0)
          = (inject_Z i * Qmax 1 (total_duration self / inject_Z n'),
             Qmin (inject_Z i * Qmax 1 (total_duration self / inject_Z n')
                   + segment_duration)
                  (total_duration self)))
    /\ (forall i j, (0 <= i < j)%Z -> (j < n')%Z ->
          fst (nth (Z.to_nat i) (requested_ranges t) (0, 0))
          < fst (nth (Z.to_nat j) (requested_ranges t) (0, 0)))
    /\ segment_duration <= Qmax 1 (total_duration self / inject_Z n').
Proof.
  intros HD HE Hn.
  destruct (extract_video_segments_run self _ _ _ _ HD HE) as (clips & t & E & R & _);
    [lia|].
  destruct (effective_count_outcomes self num_segments segment_duration)
    as [(n2 & t2 & HE2 & R0) | (t2 & HE2)]; [|congruence].
  assert (t2 = t0) by congruence. subst t2.
  set (iv := Qmax 1 (total_duration self / inject_Z n')) in *.
  assert (Hnth : forall i, (0 <= i < n')%Z ->
            nth (Z.to_nat i) (requested_ranges (t0 ++ t)) (0, 0)
            = segment_range self iv segment_duration i).
  { intros i Hi. rewrite requested_ranges_app, R0, R. cbn [app].
    rewrite nth_indep with (d' := segment_range self iv segment_duration 0%Z)
      by (rewrite length_map, length_range; lia).
    rewrite map_nth. now rewrite nth_range. }
  exists clips, (t0 ++ t). split; [exact E|]. split; [|split; [|split]].
  - rewrite requested_ranges_app, R0, R. cbn [app].
    now rewrite length_map, length_range.
  - intros i Hi. now rewrite Hnth.
  - intros i j Hij Hj. rewrite !Hnth by lia. cbn [segment_range fst].
    apply Qmult_lt_r.
    + apply Qlt_le_trans with 1; [reflexivity|apply Qmax_1_ge].
    + rewrite <- Zlt_Qlt. lia.
  - now apply (interval_ge_segment_duration self num_segments _ n' t0).
Qed.

Lemma plan_starts_uniform_witness :
  let self := sample_self 10 None (Return 8%nat) in
  exists clips t,
    extract_video_segments self 10 3 = (Return clips, t)
    /\ List.length (requested_ranges t) = Z.to_nat 3
    /\ (forall i, (0 <= i < 3)%Z ->
          nth (Z.to_nat i) (requested_ranges t) (0, 0)
          = (inject_Z i * Qmax 1 (total_duration self / inject_Z 3),
             Qmin (inject_Z i * Qmax 1 (total_duration self / inject_Z 3) + 3)
                  (total_duration self)))
    /\ (forall i j, (0 <= i < j)%Z -> (j < 3)%Z ->
          fst (nth (Z.to_nat i) (requested_ranges t) (0, 0))
          < fst (nth (Z.to_nat j) (requested_ranges t) (0, 0)))
    /\ 3 <= Qmax 1 (total_duration self / inject_Z 3).
Proof.
  intros self.
  apply (plan_starts_uniform self 10 3 3 [PrintTooShort 10 3; PrintReducing 3]).
  - discriminate.
  - reflexivity.
  - discriminate.
Defined.

(** C4, as the claim states it, fails: a negative count is not rejected; the
    planner returns an empty list of clips and raises nothing.  Nor is a
    segment duration of zero: two empty ranges are requested. *)
Lemma negative_count_not_rejected :
  let self := sample_self 10 None (Return 8%nat) in
  (-1 <= 0)%Z
  /\ extract_video_segments self (-1) 3 = (Return [], [PrintNoValid])
  /\ (exists clips, fst (extract_video_segments self 2 0) = Return clips).
Proof.
  cbv zeta. split; [discriminate|]. split; [reflexivity|].
  eexists. vm_compute. reflexivity.
Qed.

(** C4, amended: the planner fails with the invalid-input error
    ([ValueError], "video duration is zero") exactly when the source
    duration is 0, whatever the count and the segment duration are; these
    two are not validated. *)
Theorem zero_duration_is_invalid_input
        (self : VideoSummarizer) (num_segments : Z) (segment_duration : Q) :
  total_duration self == 0
  <-> exists msg t,
        extract_video_segments self num_segments segment_duration
        = (Raise (ValueError msg), t).
Proof.
  split.
  - intros H. apply is_zero_true in H.
    unfold extract_video_segments. rewrite H.
    do 2 eexists. reflexivity.
  - intros (msg & t & E).
    destruct (Qeq_dec (total_duration self) 0) as [H|H]; [exact H|].
    destruct (extract_video_segments_outcomes self num_segments
                segment_duration H) as [(c & t' & E') | (t' & E')];
      rewrite E' in E; discriminate.
Qed.

(** ** The summary composer *)

Section Composer.

Variable mp : Moviepy.
Variable self : VideoSummarizer.

Lemma rescale_eq (d : Q) (x : Clip) :
  rescale mp d x = (with_duration mp x d, [CallWithDuration x d]).
Proof. reflexivity. Qed.

(** The list comprehension either rescales every clip, or stops at the
    first clip the library refuses. *)
Lemma comprehension_run (d : Q) (xs : list Clip) :
  (exists rs,
      Forall2 (fun c r => with_duration mp c d = Return r) xs rs
      /\ Py.comprehension (rescale mp d) xs
         = (Return rs, map (fun c => CallWithDuration c d) xs))
  \/ (exists e k,
         Py.comprehension (rescale mp d) xs
         = (Raise e, map (fun c => CallWithDuration c d) (firstn k xs))).
Proof.
  induction xs as [|x xs IH].
  - left. exists []. split; [constructor|reflexivity].
  - cbn [Py.comprehension map]. rewrite !rescale_eq.
    destruct (with_duration mp x d) as [e|r] eqn:E.
    + right. exists e, 1%nat. now rewrite bind_Raise.
    + rewrite bind_Return.
      destruct IH as [(rs & HF & IH) | (e & k & IH)]; rewrite IH.
      * left. exists (r :: rs). split; [now constructor|].
        rewrite bind_Return. cbn. now rewrite app_nil_r.
      * right. exists e, (S k). now rewrite bind_Raise.
Qed.

Lemma comprehension_success (d : Q) (xs rs : list Clip) :
  Forall2 (fun c r => with_duration mp c d = Return r) xs rs ->
  Py.comprehension (rescale mp d) xs
  = (Return rs, map (fun c => CallWithDuration c d) xs).
Proof.
  induction 1 as [|x r xs rs Hx _ IH]; [reflexivity|].
  cbn [Py.comprehension map].
  rewrite rescale_eq, Hx, bind_Return, IH, bind_Return. cbn. now rewrite app_nil_r.
Qed.

(** The [finally] clause closes every clip it was given, in order. *)
Lemma close_all_run (xs : list Clip) :
  close_all xs = (Return tt, map CallClose xs).
Proof.
  unfold close_all. induction xs as [|x xs IH]; [reflexivity|].
  cbn [Py.for_in map]. unfold Py.emit at 1. now rewrite bind_Return, IH.
Qed.

(** The audio stage never raises; it hands on the clip it was given or
    the clip with audio attached. *)
Lemma add_audio_run (summary_duration : Q) (final_clip : Clip) :
  add_audio mp self summary_duration final_clip
  = match audio (video self) with
    | None => (Return final_clip, [])
    | Some a =>
        match audio_subclip (video self) a 0 summary_duration with
        | Raise e =>
            (Return final_clip,
             [CallAudioSubclip a 0 summary_duration; PrintAudioWarning e])
        | Return a' =>
            match set_audio mp final_clip a' with
            | Raise e =>
                (Return final_clip,
                 [CallAudioSubclip a 0 summary_duration;
                  CallSetAudio final_clip a'; PrintAudioWarning e])
            | Return with_audio =>
                (Return with_audio,
                 [CallAudioSubclip a 0 summary_duration;
                  CallSetAudio final_clip a'])
            end
        end
    end.
Proof.
  unfold add_audio, Py.try_except, Py.bind, Py.call, Py.emit, Py.ret.
  destruct (audio (video self)) as [a|]; [|reflexivity].
  destruct (audio_subclip (video self) a 0 summary_duration) as [e|a'];
    [reflexivity|].
  destruct (set_audio mp final_clip a'); reflexivity.
Qed.

(** The encoding raises what the encoder raises, and closes the clip only
    when the encoder returned. *)
Lemma encode_and_close_run (final_clip : Clip) :
  encode_and_close mp self final_clip
  = match write_videofile mp final_clip (output_path self)
                          "libx264" "aac" (self_fps self) with
    | Raise e =>
        (Raise e,
         [CallWriteVideofile final_clip (output_path self)
                             "libx264" "aac" (self_fps self)])
    | Return _ =>
        (Return tt,
         [CallWriteVideofile final_clip (output_path self)
                             "libx264" "aac" (self_fps self);
          CallClose final_clip])
    end.
Proof.
  unfold encode_and_close, Py.bind, Py.call, Py.emit.
  destruct (write_videofile mp final_clip (output_path self)
              "libx264" "aac" (self_fps self)); reflexivity.
Qed.

End Composer.

Section Composition.

Variable mp : Moviepy.
Variable self : VideoSummarizer.
Variable video_segments : list Clip.
Variable summary_duration : Q.

(** The outer [try] with its [except] clause never raises. *)
Lemma guarded_returns (m : Py.M unit) :
  fst (Py.try_except m (fun e => Py.emit (PrintCreationError e))) = Return tt.
Proof.
  unfold Py.try_except. destruct m as [[e|[]] t]; reflexivity.
Qed.

(** With at least one clip, the function is the guarded body, then the
    closing of the clips it was given, then [return self.output_path]. *)
Lemma create_summary_video_run :
  video_segments <> [] ->
  create_summary_video mp self video_segments summary_duration
  = (Return (output_path self),
     snd (Py.try_except
            (compose_and_write mp self video_segments summary_duration
               (summary_duration
                / inject_Z (Z.of_nat (List.length video_segments))))
            (fun e => Py.emit (PrintCreationError e)))
     ++ map CallClose video_segments).
Proof.
  intros some_segments. unfold create_summary_video.
  assert (N : Z.of_nat (List.length video_segments) <> 0%Z).
  { destruct video_segments; [now elim some_segments|cbn; lia]. }
  rewrite (proj2 (Z.eqb_neq _ _) N).
  unfold truediv. rewrite (inject_Z_nonzero _ N).
  unfold Py.ret at 1. rewrite bind_Return. cbn [app].
  unfold Py.try_finally. rewrite close_all_run.
  match goal with |- context [Py.try_except ?m ?h] =>
    pose proof (guarded_returns m) as G;
    destruct (Py.try_except m h) as [r t]
  end.
  cbn [fst] in G. subst r.
  rewrite bind_Return. cbn. now rewrite app_nil_r.
Qed.

(** When every clip was rescaled, the body of the [try] is the rescalings,
    the concatenation of their results in "compose" mode, and what follows
    it. *)
Lemma compose_and_write_rescaled (adjusted_duration : Q) (rescaled : list Clip) :
  Forall2 (fun c r => with_duration mp c adjusted_duration = Return r)
          video_segments rescaled ->
  compose_and_write mp self video_segments summary_duration adjusted_duration
  = match concatenate_videoclips mp rescaled "compose" with
    | Raise e =>
        (Raise e,
         map (fun c => CallWithDuration c adjusted_duration) video_segments
         ++ [CallConcatenate rescaled "compose"])
    | Return concatenated =>
        let audio_stage := add_audio mp self summary_duration concatenated in
        match fst audio_stage with
        | Raise e => (Raise e, [])
        | Return final_clip =>
            (fst (encode_and_close mp self final_clip),
             map (fun c => CallWithDuration c adjusted_duration) video_segments
             ++ CallConcatenate rescaled "compose"
                :: snd audio_stage
             ++ snd (encode_and_close mp self final_clip))
        end
    end.
Proof.
  intros HF. unfold compose_and_write.
  rewrite (comprehension_success mp _ _ _ HF), bind_Return. cbv beta.
  unfold Py.call.
  destruct (concatenate_videoclips mp rescaled "compose") as [e|fc].
  - rewrite bind_Raise. reflexivity.
  - rewrite bind_Return. cbv zeta. cbn [fst snd].
    rewrite add_audio_run.
    destruct (audio (video self)) as [a|].
    + destruct (audio_subclip (video self) a 0 summary_duration) as [e|a'].
      * rewrite bind_Return. reflexivity.
      * destruct (set_audio mp fc a'); rewrite bind_Return; reflexivity.
    + rewrite bind_Return. reflexivity.
Qed.

End Composition.

(** ** Facts on what a trace shows *)

Lemma rescale_requests_app (t1 t2 : list event) :
  rescale_requests (t1 ++ t2) = rescale_requests t1 ++ rescale_requests t2.
Proof. apply flat_map_app. Qed.

Lemma rescale_requests_rescalings (d : Q) (xs : list Clip) :
  rescale_requests (map (fun c => CallWithDuration c d) xs)
  = map (fun c => (c, d)) xs.
Proof.
  induction xs as [|x xs IH]; [reflexivity|].
  cbn [map].
  change (rescale_requests (CallWithDuration x d
                            :: map (fun c => CallWithDuration c d) xs))
    with ((x, d) :: rescale_requests (map (fun c => CallWithDuration c d) xs)).
  now rewrite IH.
Qed.

Lemma rescale_requests_closes (xs : list Clip) :
  rescale_requests (map CallClose xs) = [].
Proof. induction xs as [|x xs IH]; cbn; [reflexivity|exact IH]. Qed.

Lemma released_app (t1 t2 : list event) :
  released (t1 ++ t2) = released t1 ++ released t2.
Proof. apply flat_map_app. Qed.

Lemma released_closes (xs : list Clip) : released (map CallClose xs) = xs.
Proof.
  induction xs as [|x xs IH]; [reflexivity|].
  cbn [map]. change (released (CallClose x :: map CallClose xs))
    with (x :: released (map CallClose xs)).
  now rewrite IH.
Qed.

(** The stages after the concatenation ask for no rescaling. *)
Lemma no_rescaling_after_concatenation
      (mp : Moviepy) (self : VideoSummarizer) (summary_duration : Q)
      (concatenated final_clip : Clip) :
  rescale_requests (snd (add_audio mp self summary_duration concatenated)) = []
  /\ rescale_requests (snd (encode_and_close mp self final_clip)) = [].
Proof.
  rewrite add_audio_run, encode_and_close_run. split.
  - destruct (audio (video self)) as [a|]; [|reflexivity].
    destruct (audio_subclip (video self) a 0 summary_duration) as [e|a'];
      [reflexivity|].
    destruct (set_audio mp concatenated a'); reflexivity.
  - destruct (write_videofile mp final_clip (output_path self)
                "libx264" "aac" (self_fps self)); reflexivity.
Qed.

(** The audio stage always hands a clip on. *)
Lemma add_audio_returns
      (mp : Moviepy) (self : VideoSummarizer) (summary_duration : Q)
      (concatenated : Clip) :
  exists final_clip,
    fst (add_audio mp self summary_duration concatenated) = Return final_clip.
Proof.
  rewrite add_audio_run.
  destruct (audio (video self)) as [a|]; [|eexists; reflexivity].
  destruct (audio_subclip (video self) a 0 summary_duration) as [e|a'];
    [eexists; reflexivity|].
  destruct (set_audio mp concatenated a'); eexists; reflexivity.
Qed.

(** The guarded body when every clip was rescaled and the concatenation
    returned: its trace, with the events of the encoder's raise if any. *)
Lemma guarded_trace_concatenated
      (mp : Moviepy) (self : VideoSummarizer) (video_segments : list Clip)
      (summary_duration adjusted_duration : Q) (rescaled : list Clip)
      (concatenated final_clip : Clip) :
  Forall2 (fun c r => with_duration mp c adjusted_duration = Return r)
          video_segments rescaled ->
  concatenate_videoclips mp rescaled "compose" = Return concatenated ->
  fst (add_audio mp self summary_duration concatenated) = Return final_clip ->
  snd (Py.try_except
         (compose_and_write mp self video_segments summary_duration
                            adjusted_duration)
         (fun e => Py.emit (PrintCreationError e)))
  = map (fun c => CallWithDuration c adjusted_duration) video_segments
    ++ CallConcatenate rescaled "compose"
       :: snd (add_audio mp self summary_duration concatenated)
    ++ CallWriteVideofile final_clip (output_path self)
                          "libx264" "aac" (self_fps self)
       :: match write_videofile mp final_clip (output_path self)
                                "libx264" "aac" (self_fps self) with
          | Raise e => [PrintCreationError e]
          | Return _ => [CallClose final_clip]
          end.
Proof.
  intros HF HC HA.
  rewrite (compose_and_write_rescaled mp self _ _ _ _ HF), HC.
  cbv zeta. rewrite HA, encode_and_close_run.
  destruct (write_videofile mp final_clip (output_path self)
              "libx264" "aac" (self_fps self)); cbn.
  - rewrite <- app_assoc. cbn [app]. now rewrite <- app_assoc.
  - reflexivity.
Qed.

Lemma rescale_requests_cons (ev : event) (t : list event) :
  rescale_requests (ev :: t) = rescale_requests [ev] ++ rescale_requests t.
Proof. apply (rescale_requests_app [ev] t). Qed.

(** ** The claims on the summary composer *)

(** C5: given at least one clip, and a library that rescales each of them,
    the composer asks for one rescaling per clip, in the order of the
    clips, each to the same duration [summary_duration / N]; these are all
    the rescalings it ever asks for; and it then asks for the concatenation
    of the rescaled clips, in that order, in "compose" mode. *)
Theorem compose_rescales_uniformly
        (mp : Moviepy) (self : VideoSummarizer) (video_segments : list Clip)
        (summary_duration : Q) (rescaled : list Clip) :
  video_segments <> [] ->
  Forall2 (fun c r =>
             with_duration mp c
               (summary_duration
                / inject_Z (Z.of_nat (List.length video_segments)))
             = Return r)
          video_segments rescaled ->
  rescale_requests
    (snd (create_summary_video mp self video_segments summary_duration))
  = map (fun c => (c, summary_duration
                      / inject_Z (Z.of_nat (List.length video_segments))))
        video_segments
  /\ exists t',
      snd (create_summary_video mp self video_segments summary_duration)
      = map (fun c => CallWithDuration c
                        (summary_duration
                         / inject_Z (Z.of_nat (List.length video_segments))))
            video_segments
        ++ CallConcatenate rescaled "compose" :: t'.
Proof.
  intros Hne HF.
  rewrite (create_summary_video_run mp self _ _ Hne). cbn [snd].
  set (adj := summary_duration
              / inject_Z (Z.of_nat (List.length video_segments))) in *.
  destruct (concatenate_videoclips mp rescaled "compose") as [e|fc] eqn:HC.
  - rewrite (compose_and_write_rescaled mp self _ _ _ _ HF), HC.
    cbn [Py.try_except Py.emit snd]. split.
    + rewrite !rescale_requests_app, rescale_requests_rescalings,
        rescale_requests_closes.
      cbn. now rewrite !app_nil_r.
    + eexists. rewrite <- !app_assoc. reflexivity.
  - destruct (add_audio_returns mp self summary_duration fc) as (final & HA).
    rewrite (guarded_trace_concatenated mp self _ _ _ _ _ _ HF HC HA).
    destruct (no_rescaling_after_concatenation mp self summary_duration
                fc final) as (NA & _).
    split.
    + rewrite !rescale_requests_app, rescale_requests_rescalings,
        rescale_requests_closes, rescale_requests_cons,
        rescale_requests_app, NA, rescale_requests_cons.
      destruct (write_videofile mp final (output_path self)
                  "libx264" "aac" (self_fps self)); cbn;
        now rewrite !app_nil_r.
    + eexists. rewrite <- app_assoc. cbn [app]. reflexivity.
Qed.

Lemma compose_rescales_uniformly_witness :
  rescale_requests
    (snd (create_summary_video (sample_mp true (Return tt))
            (sample_self 100 None (Return 8%nat)) [0; 20; 40; 60; 80]%nat 30))
  = map (fun c => (c, 30 / inject_Z (Z.of_nat 5))) [0; 20; 40; 60; 80]%nat
  /\ exists t',
      snd (create_summary_video (sample_mp true (Return tt))
             (sample_self 100 None (Return 8%nat)) [0; 20; 40; 60; 80]%nat 30)
      = map (fun c => CallWithDuration c (30 / inject_Z (Z.of_nat 5)))
            [0; 20; 40; 60; 80]%nat
        ++ CallConcatenate [100; 120; 140; 160; 180]%nat "compose" :: t'.
Proof.
  apply (compose_rescales_uniformly (sample_mp true (Return tt))
           (sample_self 100 None (Return 8%nat)) [0; 20; 40; 60; 80]%nat 30
           [100; 120; 140; 160; 180]%nat).
  - discriminate.
  - repeat constructor.
Defined.

(** C6: with no clip at all the composer raises the no-segments error
    ([ValueError], "No video segments found") at once: nothing was asked
    of the library, so no file was written. *)
Theorem no_segments_no_output
        (mp : Moviepy) (self : VideoSummarizer) (summary_duration : Q) :
  create_summary_video mp self [] summary_duration
  = (Raise (ValueError "No video segments found. Cannot create summary."), [])
  /\ written (snd (create_summary_video mp self [] summary_duration)) = [].
Proof. split; reflexivity. Qed.

(** C7: the claim is right and the code is not.  When the encoder raises,
    the [except] clause of line 130 prints the cause and execution falls
    through to [return self.output_path]: the caller gets the path of a
    file that was not produced, and no error. *)
Theorem encode_failure_returns_path :
  write_videofile (sample_mp true (Raise (BackendError "encoder failed")))
                  1000%nat "a/b_summary.mp4" "libx264" "aac" 30
  = Raise (BackendError "encoder failed")
  /\ create_summary_video
       (sample_mp true (Raise (BackendError "encoder failed")))
       (sample_self 100 None (Return 8%nat)) [0; 20]%nat 30
     = (Return "a/b_summary.mp4"%string,
        [CallWithDuration 0%nat (30 / inject_Z 2);
         CallWithDuration 20%nat (30 / inject_Z 2);
         CallConcatenate [100; 120]%nat "compose";
         CallWriteVideofile 1000%nat "a/b_summary.mp4" "libx264" "aac" 30;
         PrintCreationError (BackendError "encoder failed");
         CallClose 0%nat; CallClose 20%nat]).
Proof. split; reflexivity. Qed.

(** C8: when the source has audio (and the clips were rescaled and
    concatenated), the composer asks for the audio trimmed to
    [0, summary_duration]; when the trim and the attachment both return,
    the clip with audio is encoded; when either raises, one warning is
    printed and the concatenation itself, unchanged, is encoded.  In every
    case the composer goes on to the encoder and returns to its caller. *)
Theorem audio_is_best_effort
        (mp : Moviepy) (self : VideoSummarizer) (video_segments : list Clip)
        (summary_duration : Q) (rescaled : list Clip)
        (concatenated : Clip) (a : Audio) :
  video_segments <> [] ->
  Forall2 (fun c r =>
             with_duration mp c
               (summary_duration
                / inject_Z (Z.of_nat (List.length video_segments)))
             = Return r)
          video_segments rescaled ->
  concatenate_videoclips mp rescaled "compose" = Return concatenated ->
  audio (video self) = Some a ->
  exists final_clip t_audio t_rest,
    create_summary_video mp self video_segments summary_duration
    = (Return (output_path self),
       map (fun c => CallWithDuration c
                       (summary_duration
                        / inject_Z (Z.of_nat (List.length video_segments))))
           video_segments
       ++ CallConcatenate rescaled "compose"
          :: CallAudioSubclip a 0 summary_duration
          :: t_audio
       ++ CallWriteVideofile final_clip (output_path self)
                             "libx264" "aac" (self_fps self)
          :: t_rest)
    /\ match audio_subclip (video self) a 0 summary_duration with
       | Raise e =>
           final_clip = concatenated /\ t_audio = [PrintAudioWarning e]
       | Return a' =>
           match set_audio mp concatenated a' with
           | Raise e =>
               final_clip = concatenated
               /\ t_audio = [CallSetAudio concatenated a'; PrintAudioWarning e]
           | Return with_audio =>
               final_clip = with_audio
               /\ t_audio = [CallSetAudio concatenated a']
           end
       end.
Proof.
  intros Hne HF HC Ha.
  rewrite (create_summary_video_run mp self _ _ Hne).
  destruct (add_audio_returns mp self summary_duration concatenated)
    as (final & HA).
  rewrite (guarded_trace_concatenated mp self _ _ _ _ _ _ HF HC HA).
  rewrite add_audio_run, Ha in HA |- *.
  exists final.
  destruct (audio_subclip (video self) a 0 summary_duration) as [e|a'].
  - cbn [fst snd] in HA |- *. injection HA as <-.
    do 2 eexists. split; [|split; reflexivity].
    rewrite <- app_assoc. reflexivity.
  - destruct (set_audio mp concatenated a') as [e|with_audio];
      cbn [fst snd] in HA |- *; injection HA as <-;
      (do 2 eexists; split; [|split; reflexivity]);
      rewrite <- app_assoc; reflexivity.
Qed.

Lemma audio_is_best_effort_witness :
  exists final_clip t_audio t_rest,
    create_summary_video (sample_mp true (Return tt))
      (sample_self 100 (Some 7%nat) (Raise (BackendError "no subclip")))
      [0; 20]%nat 30
    = (Return "a/b_summary.mp4"%string,
       map (fun c => CallWithDuration c (30 / inject_Z (Z.of_nat 2)))
           [0; 20]%nat
       ++ CallConcatenate [100; 120]%nat "compose"
          :: CallAudioSubclip 7%nat 0 30
          :: t_audio
       ++ CallWriteVideofile final_clip "a/b_summary.mp4" "libx264" "aac" 30
          :: t_rest)
    /\ final_clip = 1000%nat
    /\ t_audio = [PrintAudioWarning (BackendError "no subclip")].
Proof.
  apply (audio_is_best_effort (sample_mp true (Return tt))
           (sample_self 100 (Some 7%nat) (Raise (BackendError "no subclip")))
           [0; 20]%nat 30 [100; 120]%nat 1000%nat 7%nat).
  - discriminate.
  - repeat constructor.
  - reflexivity.
  - reflexivity.
Defined.

(** C9, as the claim states it, fails.  With a library that hands out a new
    handle for every rescaled clip and for the concatenation, the rescaled
    clips are never closed, not even when everything succeeds; and when the
    encoder raises, the concatenation is not closed either. *)
Lemma intermediate_handles_leak :
  leaked (sample_mp true (Return tt)) [0; 20]%nat
         (snd (create_summary_video (sample_mp true (Return tt))
                 (sample_self 100 None (Return 8%nat)) [0; 20]%nat 30))
  = [100; 120]%nat
  /\ leaked (sample_mp true (Raise (BackendError "encoder failed")))
            [0; 20]%nat
            (snd (create_summary_video
                    (sample_mp true (Raise (BackendError "encoder failed")))
                    (sample_self 100 None (Return 8%nat)) [0; 20]%nat 30))
     = [100; 120; 1000]%nat.
Proof. split; reflexivity. Qed.

(** C9, amended: on every exit path of the composer, whatever the library
    answered, the last thing done is to close every clip the composer was
    given, in order; none of them is left open. *)
Theorem input_clips_always_released
        (mp : Moviepy) (self : VideoSummarizer) (video_segments : list Clip)
        (summary_duration : Q) :
  (exists before,
      snd (create_summary_video mp self video_segments summary_duration)
      = before ++ map CallClose video_segments)
  /\ forall c,
      In c video_segments ->
      In c (released
              (snd (create_summary_video mp self video_segments
                      summary_duration)))
      /\ ~ In c (leaked mp video_segments
                   (snd (create_summary_video mp self video_segments
                           summary_duration))).
Proof.
  assert (H : exists before,
             snd (create_summary_video mp self video_segments summary_duration)
             = before ++ map CallClose video_segments).
  { destruct video_segments as [|c0 cs] eqn:E.
    - exists []. reflexivity.
    - rewrite (create_summary_video_run mp self (c0 :: cs) summary_duration)
        by discriminate.
      eexists. reflexivity. }
  split; [exact H|].
  intros c Hc. destruct H as (before & ->).
  assert (R : In c (released (before ++ map CallClose video_segments))).
  { rewrite released_app, released_closes. apply in_or_app. now right. }
  split; [exact R|].
  unfold leaked. intros L. apply filter_In in L. destruct L as (_ & L).
  apply negb_true_iff in L.
  assert (X : existsb (Nat.eqb c)
                (released (before ++ map CallClose video_segments)) = true).
  { apply existsb_exists. exists c. split; [exact R|apply Nat.eqb_refl]. }
  congruence.
Qed.

(** ** The default output path *)

Lemma string_of_list_ascii_app (l1 l2 : list ascii) :
  string_of_list_ascii (l1 ++ l2)
  = (string_of_list_ascii l1 ++ string_of_list_ascii l2)%string.
Proof. induction l1 as [|c l1 IH]; cbn; [reflexivity|now rewrite IH]. Qed.

(** What [rfind1] finds is there: a character with [f] at the index it
    returns, which is not before the head. *)
Lemma rfind1_found (f : ascii -> bool) (p : list ascii) :
  forall i k, rfind1 f i p = S k ->
  (i <= k)%nat /\ exists c, nth_error p (k - i) = Some c /\ f c = true.
Proof.
  induction p as [|c p IH]; intros i k H; cbn in H; [discriminate|].
  destruct (rfind1 f (S i) p) as [|r] eqn:E.
  - destruct (f c) eqn:Fc; [|discriminate].
    injection H as <-. split; [lia|].
    exists c. rewrite Nat.sub_diag. auto.
  - injection H as ->. destruct (IH _ _ E) as (Hle & c' & Hn & Fc').
    split; [lia|]. exists c'. split; [|exact Fc'].
    replace (k - i)%nat with (S (k - S i)) by lia. exact Hn.
Qed.

Lemma skipn_nth_error {A} (l : list A) (k : nat) (x : A) :
  nth_error l k = Some x -> exists l', skipn k l = x :: l'.
Proof.
  revert k. induction l as [|y l IH]; intros [|k] H; cbn in *;
    try discriminate.
  - injection H as ->. eauto.
  - auto.
Qed.

(** The two parts [splitext] returns make up the path, and the second is
    empty or begins with a dot. *)
Lemma splitext_parts (is_sep : ascii -> bool) (p base ext : string) :
  splitext is_sep p = (base, ext) ->
  (base ++ ext)%string = p
  /\ (ext = ""%string \/ exists rest, ext = String "." rest).
Proof.
  unfold splitext, splitext_chars. intros H.
  set (l := list_ascii_of_string p) in *.
  assert (Whole : (string_of_list_ascii l ++ string_of_list_ascii [])%string = p).
  { cbn. clear H. subst l. rewrite string_of_list_ascii_of_string.
    induction p as [|c p IH]; cbn; [reflexivity|now rewrite IH]. }
  destruct (rfind1 is_sep 0 l <? rfind1 is_dot 0 l)%nat eqn:L.
  - destruct (has_non_dot l (rfind1 is_sep 0 l) (pred (rfind1 is_dot 0 l))).
    + injection H as <- <-. split.
      * rewrite <- string_of_list_ascii_app, firstn_skipn.
        subst l. apply string_of_list_ascii_of_string.
      * right. apply Nat.ltb_lt in L.
        destruct (rfind1 is_dot 0 l) as [|k] eqn:E; [lia|].
        destruct (rfind1_found _ _ _ _ E) as (_ & c & Hn & Hc).
        rewrite Nat.sub_0_r in Hn. cbn [pred].
        destruct (skipn_nth_error _ _ _ Hn) as (l' & ->).
        unfold is_dot in Hc. apply Ascii.eqb_eq in Hc. subst c.
        cbn. eauto.
    + injection H as <- <-. split; [exact Whole|now left].
  - injection H as <- <-. split; [exact Whole|now left].
Qed.

(** C10: when the summarizer is constructed with the output path omitted
    ([None]) or empty, its output path is the input path with "_summary"
    put between the two parts [os.path.splitext] splits it into; the empty
    string is not taken as a path. *)
Theorem default_output_path
        (is_sep : ascii -> bool) (mp : Moviepy) (inp : string)
        (out : option string) (self : VideoSummarizer) :
  out = None \/ out = Some ""%string ->
  __init__ is_sep mp inp out = Return self ->
  exists base ext,
    splitext is_sep inp = (base, ext)
    /\ (base ++ ext)%string = inp
    /\ (ext = ""%string \/ exists rest, ext = String "." rest)
    /\ output_path self = (base ++ "_summary" ++ ext)%string.
Proof.
  intros Hout Hinit.
  assert (P : output_path self = _generate_output_path is_sep inp).
  { unfold __init__ in Hinit.
    destruct (VideoFileClip mp inp) as [e|v]; [discriminate|].
    destruct (is_zero _); [discriminate|].
    injection Hinit as <-. cbn [output_path].
    destruct Hout as [-> | ->]; reflexivity. }
  unfold _generate_output_path in P.
  destruct (splitext is_sep inp) as [base ext] eqn:E.
  exists base, ext.
  destruct (splitext_parts _ _ _ _ E) as (W & X). auto.
Qed.

Lemma default_output_path_witness :
  exists base ext,
    splitext posix_sep "a/b.mp4" = (base, ext)
    /\ (base ++ ext)%string = "a/b.mp4"%string
    /\ (ext = ""%string \/ exists rest, ext = String "." rest)
    /\ output_path (sample_self 100 None (Return 8%nat))
       = (base ++ "_summary" ++ ext)%string.
Proof.
  apply (default_output_path posix_sep (sample_mp true (Return tt))
           "a/b.mp4" (Some ""%string)).
  - right. reflexivity.
  - reflexivity.
Defined.

(** The example of the claim, and a path with a dot in a directory only. *)
Example default_output_path_examples :
  _generate_output_path posix_sep "a/b.mp4" = "a/b_summary.mp4"%string
  /\ _generate_output_path posix_sep "a.d/b" = "a.d/b_summary"%string
  /\ _generate_output_path nt_sep "C:\x.y\videoplayback.mp4"
     = "C:\x.y\videoplayback_summary.mp4"%string.
Proof. repeat split. Qed.

(** ** More on the segment planner *)

Lemma Qfloor_small (x : Q) : 0 <= x -> x < 1 -> Qfloor x = 0%Z.
Proof.
  intros H0 H1.
  pose proof (Qfloor_le x) as L. pose proof (Qlt_floor x) as U.
  assert (A : inject_Z (Qfloor x) < inject_Z 1)
    by (change (inject_Z 1) with 1; lra).
  assert (B : inject_Z 0 < inject_Z (Qfloor x + 1))
    by (change (inject_Z 0) with 0; lra).
  rewrite <- Zlt_Qlt in A, B. lia.
Qed.

Lemma Qfloor_ge_1 (x : Q) : 1 <= x -> (1 <= Qfloor x)%Z.
Proof.
  intros H. change 1%Z with (Qfloor 1). now apply Qfloor_resp_le.
Qed.

Lemma quotient_bounds (D seg : Q) :
  0 < seg ->
  (0 <= D -> 0 <= D / seg)
  /\ (D < seg -> D / seg < 1)
  /\ (seg <= D -> 1 <= D / seg).
Proof.
  intros Hs. repeat split; intros H.
  - apply Qle_shift_div_l; lra.
  - apply Qlt_shift_div_r; lra.
  - apply Qle_shift_div_l; lra.
Qed.

(** A source shorter than one segment: the count is reduced to 0 and the
    division of line 67 raises. *)
Lemma no_segment_fits_raises
      (self : VideoSummarizer) (num_segments : Z) (segment_duration : Q) :
  0 < total_duration self -> (0 < num_segments)%Z ->
  total_duration self < segment_duration ->
  extract_video_segments self num_segments segment_duration
  = (Raise ZeroDivisionError,
     [PrintTooShort num_segments segment_duration; PrintReducing 0]).
Proof.
  intros HD Hn H.
  assert (Hs : 0 < segment_duration) by lra.
  destruct (quotient_bounds (total_duration self) segment_duration Hs)
    as (Q0 & Q1 & _).
  assert (HD' : ~ total_duration self == 0) by lra.
  assert (Hs' : ~ segment_duration == 0) by lra.
  assert (Hn1 : 1 <= inject_Z num_segments).
  { change 1 with (inject_Z 1). rewrite <- Zle_Qle. lia. }
  assert (Short : total_duration self < inject_Z num_segments * segment_duration)
    by nra.
  pose proof (effective_count_short self num_segments segment_duration
                Short Hs') as HE.
  rewrite (Qfloor_small _ (Q0 (Qlt_le_weak _ _ HD)) (Q1 H)) in HE.
  now apply extract_video_segments_zero_count.
Qed.

(** X1: with positive arguments the planner fails exactly when the source
    is shorter than one segment: it then announces a reduction to 0 and
    raises [ZeroDivisionError]; as soon as one segment fits, it returns. *)
Theorem planner_fails_iff_no_segment_fits
        (self : VideoSummarizer) (num_segments : Z) (segment_duration : Q) :
  0 < total_duration self -> (0 < num_segments)%Z -> 0 < segment_duration ->
  (total_duration self < segment_duration ->
   extract_video_segments self num_segments segment_duration
   = (Raise ZeroDivisionError,
      [PrintTooShort num_segments segment_duration; PrintReducing 0]))
  /\ (segment_duration <= total_duration self ->
      exists clips t,
        extract_video_segments self num_segments segment_duration
        = (Return clips, t)).
Proof.
  intros HD Hn Hs.
  destruct (quotient_bounds (total_duration self) segment_duration Hs)
    as (Q0 & Q1 & Q2).
  split; intros H.
  - now apply no_segment_fits_raises.
  - destruct (Qlt_le_dec (total_duration self)
                (inject_Z num_segments * segment_duration)) as [Short|Enough].
    + destruct (plan_reduced_when_too_short self num_segments segment_duration
                  HD Hn Hs Short (Qfloor_ge_1 _ (Q2 H)))
        as (clips & t & E & _).
      eauto.
    + destruct (plan_exact_when_long_enough self num_segments segment_duration
                  HD Hn Hs Enough) as (clips & t & E & _).
      eauto.
Qed.

Lemma planner_fails_iff_no_segment_fits_witness :
  (2 < 3 ->
   extract_video_segments (sample_self 2 None (Return 8%nat)) 10 3
   = (Raise ZeroDivisionError, [PrintTooShort 10 3; PrintReducing 0]))
  /\ (3 <= 2 ->
      exists clips t,
        extract_video_segments (sample_self 2 None (Return 8%nat)) 10 3
        = (Return clips, t)).
Proof.
  apply (planner_fails_iff_no_segment_fits
           (sample_self 2 None (Return 8%nat)) 10 3); reflexivity.
Defined.



(** A source of zero duration stops the planner at line 58. *)
Lemma zero_duration_raises
      (self : VideoSummarizer) (n : Z) (seg : Q) :
  total_duration self == 0 ->
  extract_video_segments self n seg
  = (Raise (ValueError "Cannot extract segments: video duration is zero."), []).
Proof.
  intros H. apply is_zero_true in H.
  unfold extract_video_segments. now rewrite H.
Qed.


Lemma nth_range_nat (n' : Z) (i : nat) (d : Z) :
  (i < List.length (range n'))%nat -> nth i (range n') d = Z.of_nat i.
Proof.
  intros H. rewrite length_range in H.
  rewrite <- (Nat2Z.id i) at 1. apply nth_range. lia.
Qed.





Lemma segment_errors_app (t1 t2 : list event) :
  segment_errors (t1 ++ t2) = segment_errors t1 ++ segment_errors t2.
Proof. apply flat_map_app. Qed.

Lemma honoured_app (v : Video) (r1 r2 : list (Q * Q)) :
  honoured v (r1 ++ r2) = honoured v r1 ++ honoured v r2.
Proof. apply flat_map_app. Qed.

(** One turn of the loop appends the clip when the library honours the
    slice, and reports an error when it does not. *)
Lemma extract_one_clips
      (self : VideoSummarizer) (iv seg : Q) (i : Z) (acc : list Clip) :
  exists t,
    extract_one self iv seg i acc
    = (Return (acc ++ honoured (video self) [segment_range self iv seg i]), t)
    /\ requested_ranges t = [segment_range self iv seg i]
    /\ (List.length (honoured (video self) [segment_range self iv seg i])
        + List.length (segment_errors t) = 1)%nat
    /\ ~ In PrintNoValid t
    /\ rescale_requests t = [].
Proof.
  unfold extract_one, segment_range, honoured, Py.try_except, Py.bind,
    Py.call, Py.emit, Py.ret.
  cbn [flat_map fst snd].
  destruct (subclipped (video self) (inject_Z i * iv)
              (Qmin (inject_Z i * iv + seg) (total_duration self))) as [e|c];
    cbn [app]; rewrite ?app_nil_r; eexists; (split; [reflexivity|]);
    (split; [reflexivity|]); (split; [reflexivity|]);
    (split; [cbn; intuition discriminate|reflexivity]).
Qed.

Lemma loop_clips
      (self : VideoSummarizer) (iv seg : Q) (idx : list Z) :
  forall acc, exists t,
    Py.for_in idx (extract_one self iv seg) acc
    = (Return (acc ++ honoured (video self)
                        (map (segment_range self iv seg) idx)), t)
    /\ requested_ranges t = map (segment_range self iv seg) idx
    /\ (List.length (honoured (video self)
                       (map (segment_range self iv seg) idx))
        + List.length (segment_errors t) = List.length idx)%nat
    /\ ~ In PrintNoValid t
    /\ rescale_requests t = [].
Proof.
  induction idx as [|i idx IH]; intros acc.
  - exists []. cbn. rewrite app_nil_r. repeat split; auto.
  - destruct (extract_one_clips self iv seg i acc)
      as (t1 & E1 & R1 & L1 & N1 & X1).
    destruct (IH (acc ++ honoured (video self) [segment_range self iv seg i]))
      as (t2 & E2 & R2 & L2 & N2 & X2).
    exists (t1 ++ t2). cbn [Py.for_in map].
    rewrite E1, bind_Return, E2. cbn [fst snd].
    change (segment_range self iv seg i :: map (segment_range self iv seg) idx)
      with ([segment_range self iv seg i]
            ++ map (segment_range self iv seg) idx).
    rewrite honoured_app, requested_ranges_app, segment_errors_app, R1, R2,
      !length_app, <- app_assoc.
    split; [reflexivity|]. split; [reflexivity|]. split; [|split].
    + cbn [List.length] in *. lia.
    + intros H. apply in_app_or in H. tauto.
    + now rewrite rescale_requests_app, X1, X2.
Qed.

(** What the reduction prints: nothing, or the warning and the new count. *)
Lemma effective_count_trace
      (self : VideoSummarizer) (n : Z) (seg : Q) (n' : Z) (t0 : list event) :
  effective_count self n seg = (Return n', t0) ->
  t0 = [] \/ t0 = [PrintTooShort n seg; PrintReducing n'].
Proof.
  unfold effective_count, floordiv.
  destruct (lt (total_duration self) (inject_Z n * seg)).
  - destruct (is_zero seg); cbn -[Qfloor Qdiv int]; intros H;
      [discriminate|].
    right. injection H as <- <-. reflexivity.
  - intros H. left. now injection H.
Qed.

(** Past the count and the interval, the planner returns the honoured
    slices of its plan. *)
Lemma extract_video_segments_run_clips
      (self : VideoSummarizer) (n : Z) (seg : Q) (n' : Z) (t0 : list event) :
  ~ total_duration self == 0 ->
  effective_count self n seg = (Return n', t0) ->
  n' <> 0%Z ->
  exists t1,
    extract_video_segments self n seg
    = (Return (honoured (video self)
                 (map (segment_range self
                         (Qmax 1 (total_duration self / inject_Z n')) seg)
                      (range n'))),
       t0 ++ t1
       ++ match honoured (video self)
                  (map (segment_range self
                          (Qmax 1 (total_duration self / inject_Z n')) seg)
                       (range n')) with
          | [] => [PrintNoValid]
          | _ => []
          end)
    /\ requested_ranges t1
       = map (segment_range self
                (Qmax 1 (total_duration self / inject_Z n')) seg) (range n')
    /\ (List.length (honoured (video self) (requested_ranges t1))
        + List.length (segment_errors t1)
        = List.length (requested_ranges t1))%nat
    /\ ~ In PrintNoValid t1
    /\ rescale_requests t1 = [].
Proof.
  intros HD HE Hn. unfold extract_video_segments.
  apply is_zero_false in HD. rewrite HD, HE. cbn.
  unfold truediv. rewrite (inject_Z_nonzero _ Hn). cbn.
  destruct (loop_clips self (Qmax 1 (total_duration self / inject_Z n')) seg
              (range n') []) as (t1 & E & R & L & N & X).
  cbn [app] in E. rewrite E. exists t1. rewrite R, length_map.
  split; [|auto].
  destruct (honoured (video self) _); cbn; now rewrite ?app_nil_r.
Qed.

(** X5: whenever the planner returns, the clips it returns are exactly the
    slices the library honoured, in the order of the plan; each refused
    slice is reported once and skipped; and "no valid segments" is printed
    exactly when no clip is returned. *)
Theorem realized_clips_are_the_honoured_slices
        (self : VideoSummarizer) (num_segments : Z) (segment_duration : Q)
        (clips : list Clip) (t : list event) :
  extract_video_segments self num_segments segment_duration = (Return clips, t) ->
  clips = honoured (video self) (requested_ranges t)
  /\ (List.length clips + List.length (segment_errors t)
      = List.length (requested_ranges t))%nat
  /\ (In PrintNoValid t <-> clips = []).
Proof.
  intros Hrun.
  destruct (Qeq_dec (total_duration self) 0) as [Z0|HD].
  { rewrite (zero_duration_raises self _ _ Z0) in Hrun. discriminate. }
  destruct (effective_count_outcomes self num_segments segment_duration)
    as [(n' & t0 & HE & _) | (t0 & HE)].
  - destruct (Z.eq_dec n' 0) as [->|Hn'].
    + rewrite (extract_video_segments_zero_count _ _ _ _ HD HE) in Hrun.
      discriminate.
    + destruct (extract_video_segments_run_clips _ _ _ _ _ HD HE Hn')
        as (t1 & E & R & L & N & _).
      rewrite E in Hrun. injection Hrun as <- <-.
      rewrite <- R in *.
      set (h := honoured (video self) (requested_ranges t1)) in *.
      assert (T0 : requested_ranges t0 = [] /\ segment_errors t0 = []
                   /\ ~ In PrintNoValid t0).
      { destruct (effective_count_trace _ _ _ _ _ HE) as [-> | ->];
          cbn; intuition discriminate. }
      destruct T0 as (R0 & S0 & N0).
      assert (Last : requested_ranges
                       match h with [] => [PrintNoValid] | _ => [] end = []
                     /\ segment_errors
                          match h with [] => [PrintNoValid] | _ => [] end = [])
        by (destruct h; split; reflexivity).
      destruct Last as (RL & SL).
      rewrite !requested_ranges_app, !segment_errors_app, R0, S0, RL, SL.
      cbn [app]. rewrite !app_nil_r.
      split; [reflexivity|]. split; [exact L|].
      split.
      * intros H. apply in_app_or in H. destruct H as [H|H]; [tauto|].
        apply in_app_or in H. destruct H as [H|H]; [tauto|].
        destruct h; [reflexivity|destruct H].
      * intros ->. apply in_or_app. right. apply in_or_app. right. now left.
  - rewrite (extract_video_segments_count_raises _ _ _ _ _ HD HE) in Hrun.
    discriminate.
Qed.

Lemma realized_clips_are_the_honoured_slices_witness :
  [0; 5]%nat
  = honoured (video (partial_self 30 10))
             (requested_ranges
                (snd (extract_video_segments (partial_self 30 10) 6 3)))
  /\ (List.length [0; 5]%nat
      + List.length
          (segment_errors
             (snd (extract_video_segments (partial_self 30 10) 6 3)))
      = List.length
          (requested_ranges
             (snd (extract_video_segments (partial_self 30 10) 6 3))))%nat
  /\ (In PrintNoValid (snd (extract_video_segments (partial_self 30 10) 6 3))
      <-> [0; 5]%nat = []).
Proof.
  apply (realized_clips_are_the_honoured_slices (partial_self 30 10) 6 3).
  reflexivity.
Defined.

(** ** More on the summary composer *)

(** The three ways the guarded body of the composer can go: a rescaling
    is refused; the concatenation is refused; or the clip, with or without
    audio, reaches the encoder. *)
Lemma guarded_trace_cases
      (mp : Moviepy) (self : VideoSummarizer) (video_segments : list Clip)
      (summary_duration adjusted_duration : Q) :
  let g := snd (Py.try_except
                  (compose_and_write mp self video_segments summary_duration
                                     adjusted_duration)
                  (fun e => Py.emit (PrintCreationError e))) in
  (exists e k,
      g = map (fun c => CallWithDuration c adjusted_duration)
              (firstn k video_segments)
          ++ [PrintCreationError e])
  \/ (exists rescaled e,
         g = map (fun c => CallWithDuration c adjusted_duration) video_segments
             ++ [CallConcatenate rescaled "compose"; PrintCreationError e])
  \/ (exists rescaled concatenated final_clip,
         fst (add_audio mp self summary_duration concatenated)
         = Return final_clip
         /\ g = map (fun c => CallWithDuration c adjusted_duration)
                    video_segments
                ++ CallConcatenate rescaled "compose"
                   :: snd (add_audio mp self summary_duration concatenated)
                ++ CallWriteVideofile final_clip (output_path self)
                                      "libx264" "aac" (self_fps self)
                   :: match write_videofile mp final_clip (output_path self)
                                            "libx264" "aac" (self_fps self) with
                      | Raise e => [PrintCreationError e]
                      | Return _ => [CallClose final_clip]
                      end).
Proof.
  cbv zeta.
  destruct (comprehension_run mp adjusted_duration video_segments)
    as [(rs & HF & _) | (e & k & E)].
  - destruct (concatenate_videoclips mp rs "compose") as [e|fc] eqn:HC.
    + right. left. exists rs, e.
      rewrite (compose_and_write_rescaled mp self _ _ _ _ HF), HC.
      cbn. now rewrite <- app_assoc.
    + right. right.
      destruct (add_audio_returns mp self summary_duration fc) as (final & HA).
      exists rs, fc, final. split; [exact HA|].
      apply (guarded_trace_concatenated mp self _ _ _ _ _ _ HF HC HA).
  - left. exists e, k. unfold compose_and_write.
    rewrite E, bind_Raise. reflexivity.
Qed.

Lemma encode_requests_app (t1 t2 : list event) :
  encode_requests (t1 ++ t2) = encode_requests t1 ++ encode_requests t2.
Proof. apply flat_map_app. Qed.

Lemma encode_requests_rescalings (d : Q) (xs : list Clip) :
  encode_requests (map (fun c => CallWithDuration c d) xs) = [].
Proof. induction xs as [|x xs IH]; [reflexivity|exact IH]. Qed.

Lemma encode_requests_closes (xs : list Clip) :
  encode_requests (map CallClose xs) = [].
Proof. induction xs as [|x xs IH]; [reflexivity|exact IH]. Qed.

Lemma encode_requests_audio
      (mp : Moviepy) (self : VideoSummarizer) (summary_duration : Q)
      (concatenated : Clip) :
  encode_requests (snd (add_audio mp self summary_duration concatenated)) = [].
Proof.
  rewrite add_audio_run.
  destruct (audio (video self)) as [a|]; [|reflexivity].
  destruct (audio_subclip (video self) a 0 summary_duration) as [e|a'];
    [reflexivity|].
  destruct (set_audio mp concatenated a'); reflexivity.
Qed.

(** X6: given at least one clip, the composer never raises, whatever the
    library answers: it returns [self.output_path]. *)
Theorem composer_returns_the_path
        (mp : Moviepy) (self : VideoSummarizer) (video_segments : list Clip)
        (summary_duration : Q) :
  video_segments <> [] ->
  fst (create_summary_video mp self video_segments summary_duration)
  = Return (output_path self).
Proof.
  intros Hne. now rewrite (create_summary_video_run mp self _ _ Hne).
Qed.

Lemma composer_returns_the_path_witness :
  fst (create_summary_video (faulty_mp 20%nat (Return 1000%nat))
         (sample_self 100 None (Return 8%nat)) [0; 20; 40]%nat 30)
  = Return "a/b_summary.mp4"%string.
Proof.
  apply (composer_returns_the_path (faulty_mp 20%nat (Return 1000%nat))
           (sample_self 100 None (Return 8%nat)) [0; 20; 40]%nat 30).
  discriminate.
Defined.

(** X7: in any run of the composer the encoder is called at most once, and
    then to [self.output_path], with the codecs "libx264" and "aac" and the
    frame rate of the source. *)
Theorem encoder_called_at_most_once
        (mp : Moviepy) (self : VideoSummarizer) (video_segments : list Clip)
        (summary_duration : Q) :
  encode_requests
    (snd (create_summary_video mp self video_segments summary_duration)) = []
  \/ exists final_clip,
      encode_requests
        (snd (create_summary_video mp self video_segments summary_duration))
      = [(final_clip, output_path self, "libx264"%string, "aac"%string,
          self_fps self)].
Proof.
  destruct video_segments as [|c0 cs] eqn:Esegs; [left; reflexivity|].
  rewrite <- Esegs.
  assert (Hne : video_segments <> []) by (rewrite Esegs; discriminate).
  rewrite (create_summary_video_run mp self _ _ Hne). cbn [snd].
  rewrite encode_requests_app, encode_requests_closes, app_nil_r.
  destruct (guarded_trace_cases mp self video_segments summary_duration
              (summary_duration
               / inject_Z (Z.of_nat (List.length video_segments))))
    as [(e & k & ->) | [(rs & e & ->) | (rs & fc & final & HA & ->)]].
  - left. now rewrite encode_requests_app, encode_requests_rescalings.
  - left. now rewrite encode_requests_app, encode_requests_rescalings.
  - right. exists final.
    rewrite encode_requests_app, encode_requests_rescalings. cbn [app].
    change (encode_requests (?x :: ?l)) with (encode_requests l).
    rewrite encode_requests_app, encode_requests_audio. cbn [app].
    destruct (write_videofile mp final (output_path self)
                "libx264" "aac" (self_fps self)); reflexivity.
Qed.

(** The list comprehension stops at the first clip the library refuses to
    rescale: the clips after it are not even tried. *)
Lemma comprehension_refused
      (mp : Moviepy) (d : Q) (before after rescaled : list Clip)
      (c : Clip) (e : exn) :
  Forall2 (fun x r => with_duration mp x d = Return r) before rescaled ->
  with_duration mp c d = Raise e ->
  Py.comprehension (rescale mp d) (before ++ c :: after)
  = (Raise e, map (fun x => CallWithDuration x d) (before ++ [c])).
Proof.
  intros HF Hc. induction HF as [|x r xs rs Hx _ IH].
  - cbn [app Py.comprehension map]. rewrite rescale_eq, Hc.
    now rewrite bind_Raise.
  - cbn [app Py.comprehension map].
    rewrite rescale_eq, Hx, bind_Return, IH, bind_Raise. reflexivity.
Qed.

(** X8: when the library refuses to rescale a clip, the composer has asked
    for the rescaling of the clips up to that one and of no other; it asks
    for no concatenation and no encoding, prints the error, closes every
    clip it was given, and returns the output path. *)
Theorem rescale_refusal_stops_composition
        (mp : Moviepy) (self : VideoSummarizer)
        (before after rescaled : list Clip) (c : Clip) (e : exn)
        (summary_duration : Q) :
  let video_segments := before ++ c :: after in
  let adjusted_duration :=
    summary_duration / inject_Z (Z.of_nat (List.length video_segments)) in
  Forall2 (fun x r => with_duration mp x adjusted_duration = Return r)
          before rescaled ->
  with_duration mp c adjusted_duration = Raise e ->
  create_summary_video mp self video_segments summary_duration
  = (Return (output_path self),
     map (fun x => CallWithDuration x adjusted_duration) (before ++ [c])
     ++ PrintCreationError e :: map CallClose video_segments).
Proof.
  intros segs adj HF Hc.
  assert (Hne : segs <> []) by (subst segs; now destruct before).
  rewrite (create_summary_video_run mp self _ _ Hne). fold adj.
  unfold compose_and_write. subst segs.
  rewrite (comprehension_refused mp adj _ _ _ _ _ HF Hc), bind_Raise.
  cbn [Py.try_except Py.emit snd]. now rewrite <- app_assoc.
Qed.

Lemma rescale_refusal_stops_composition_witness :
  create_summary_video (faulty_mp 20%nat (Return 1000%nat))
    (sample_self 100 None (Return 8%nat)) ([0]%nat ++ 20%nat :: [40]%nat) 30
  = (Return "a/b_summary.mp4"%string,
     map (fun x => CallWithDuration x
                     (30 / inject_Z (Z.of_nat
                                       (List.length
                                          ([0]%nat ++ 20%nat :: [40]%nat)))))
         ([0]%nat ++ [20]%nat)
     ++ PrintCreationError (BackendError "cannot rescale")
        :: map CallClose ([0]%nat ++ 20%nat :: [40]%nat)).
Proof.
  apply (rescale_refusal_stops_composition (faulty_mp 20%nat (Return 1000%nat))
           (sample_self 100 None (Return 8%nat)) [0]%nat [40]%nat [100]%nat
           20%nat (BackendError "cannot rescale") 30).
  - repeat constructor.
  - reflexivity.
Defined.

(** X9: when every clip was rescaled but the library refuses the
    concatenation, nothing is encoded: the composer prints the error,
    closes every clip it was given, and returns the output path. *)
Theorem concatenation_refusal_writes_nothing
        (mp : Moviepy) (self : VideoSummarizer) (video_segments : list Clip)
        (summary_duration : Q) (rescaled : list Clip) (e : exn) :
  let adjusted_duration :=
    summary_duration / inject_Z (Z.of_nat (List.length video_segments)) in
  video_segments <> [] ->
  Forall2 (fun x r => with_duration mp x adjusted_duration = Return r)
          video_segments rescaled ->
  concatenate_videoclips mp rescaled "compose" = Raise e ->
  create_summary_video mp self video_segments summary_duration
  = (Return (output_path self),
     map (fun x => CallWithDuration x adjusted_duration) video_segments
     ++ CallConcatenate rescaled "compose"
        :: PrintCreationError e :: map CallClose video_segments).
Proof.
  intros adj Hne HF HC.
  rewrite (create_summary_video_run mp self _ _ Hne). fold adj.
  rewrite (compose_and_write_rescaled mp self _ _ _ _ HF), HC.
  cbn [Py.try_except Py.emit snd]. now rewrite <- !app_assoc.
Qed.

Lemma concatenation_refusal_writes_nothing_witness :
  create_summary_video
    (faulty_mp 7%nat (Raise (BackendError "sizes differ")))
    (sample_self 100 None (Return 8%nat)) [0; 20]%nat 30
  = (Return "a/b_summary.mp4"%string,
     map (fun x => CallWithDuration x
                     (30 / inject_Z (Z.of_nat (List.length [0; 20]%nat))))
         [0; 20]%nat
     ++ CallConcatenate [100; 120]%nat "compose"
        :: PrintCreationError (BackendError "sizes differ")
        :: map CallClose [0; 20]%nat).
Proof.
  apply (concatenation_refusal_writes_nothing
           (faulty_mp 7%nat (Raise (BackendError "sizes differ")))
           (sample_self 100 None (Return 8%nat)) [0; 20]%nat 30
           [100; 120]%nat (BackendError "sizes differ")).
  - discriminate.
  - repeat constructor.
  - reflexivity.
Defined.

Lemma audio_events_app (t1 t2 : list event) :
  audio_events (t1 ++ t2) = audio_events t1 ++ audio_events t2.
Proof. apply filter_app. Qed.

Lemma audio_events_rescalings (d : Q) (xs : list Clip) :
  audio_events (map (fun c => CallWithDuration c d) xs) = [].
Proof. induction xs as [|x xs IH]; [reflexivity|exact IH]. Qed.

Lemma audio_events_closes (xs : list Clip) :
  audio_events (map CallClose xs) = [].
Proof. induction xs as [|x xs IH]; [reflexivity|exact IH]. Qed.

(** X10: when the source has no audio track, the composer makes no audio
    call and prints no audio warning, on any path. *)
Theorem no_audio_track_no_audio_calls
        (mp : Moviepy) (self : VideoSummarizer) (video_segments : list Clip)
        (summary_duration : Q) :
  audio (video self) = None ->
  audio_events
    (snd (create_summary_video mp self video_segments summary_duration)) = [].
Proof.
  intros Ha.
  destruct video_segments as [|c0 cs] eqn:Esegs; [reflexivity|].
  rewrite <- Esegs.
  assert (Hne : video_segments <> []) by (rewrite Esegs; discriminate).
  rewrite (create_summary_video_run mp self _ _ Hne). cbn [snd].
  rewrite audio_events_app, audio_events_closes, app_nil_r.
  destruct (guarded_trace_cases mp self video_segments summary_duration
              (summary_duration
               / inject_Z (Z.of_nat (List.length video_segments))))
    as [(e & k & ->) | [(rs & e & ->) | (rs & fc & final & HA & ->)]].
  - now rewrite audio_events_app, audio_events_rescalings.
  - now rewrite audio_events_app, audio_events_rescalings.
  - rewrite audio_events_app, audio_events_rescalings. cbn [app].
    rewrite add_audio_run, Ha. cbn [snd app].
    destruct (write_videofile mp final (output_path self)
                "libx264" "aac" (self_fps self)); reflexivity.
Qed.

Lemma no_audio_track_no_audio_calls_witness :
  audio_events
    (snd (create_summary_video (sample_mp true (Return tt))
            (sample_self 100 None (Return 8%nat)) [0; 20]%nat 30)) = [].
Proof.
  apply (no_audio_track_no_audio_calls (sample_mp true (Return tt))
           (sample_self 100 None (Return 8%nat)) [0; 20]%nat 30).
  reflexivity.
Defined.

(** ** More on the constructor and the default output path *)

(** X11: the constructor raises nothing but [ValueError], and for two
    reasons only: the library could not load the file, whatever it raised,
    and then the message quotes the cause; or the video it loaded has zero
    duration. *)
Theorem construction_fails_only_with_value_error
        (is_sep : ascii -> bool) (mp : Moviepy) (inp : string)
        (out : option string) (e : exn) :
  __init__ is_sep mp inp out = Raise e ->
  (exists cause,
      VideoFileClip mp inp = Raise cause
      /\ e = ValueError ("Error loading video file: " ++ exn_str cause))
  \/ (exists v,
         VideoFileClip mp inp = Return v
         /\ duration v == 0
         /\ e = ValueError "Invalid video file or zero duration detected.").
Proof.
  unfold __init__. intros H.
  destruct (VideoFileClip mp inp) as [cause|v].
  - left. exists cause. split; [reflexivity|]. now injection H.
  - right. exists v. cbn [total_duration] in H.
    destruct (is_zero (duration v)) eqn:Z0; [|discriminate].
    apply is_zero_true in Z0. repeat split; [exact Z0|]. now injection H.
Qed.

Lemma construction_fails_only_with_value_error_witness :
  (exists cause,
      VideoFileClip (faulty_mp 0%nat (Return 1000%nat)) "a/b.mp4" = Raise cause
      /\ ValueError "Error loading video file: file not found"
         = ValueError ("Error loading video file: " ++ exn_str cause))
  \/ (exists v,
         VideoFileClip (faulty_mp 0%nat (Return 1000%nat)) "a/b.mp4" = Return v
         /\ duration v == 0
         /\ ValueError "Error loading video file: file not found"
            = ValueError "Invalid video file or zero duration detected.").
Proof.
  apply (construction_fails_only_with_value_error posix_sep
           (faulty_mp 0%nat (Return 1000%nat)) "a/b.mp4" None).
  reflexivity.
Defined.

(** X12: a summarizer that was constructed holds the video the library
    loaded and its properties, and its duration is not zero; so on it the
    planner never raises its own [ValueError]: it returns, or it raises
    [ZeroDivisionError]. *)
Theorem constructed_summarizer_has_a_duration
        (is_sep : ascii -> bool) (mp : Moviepy) (inp : string)
        (out : option string) (self : VideoSummarizer) :
  __init__ is_sep mp inp out = Return self ->
  VideoFileClip mp inp = Return (video self)
  /\ input_path self = inp
  /\ self_fps self = fps (video self)
  /\ (width self, height self) = size (video self)
  /\ total_duration self = duration (video self)
  /\ ~ total_duration self == 0
  /\ forall num_segments segment_duration e t,
      extract_video_segments self num_segments segment_duration = (Raise e, t) ->
      e = ZeroDivisionError.
Proof.
  unfold __init__. intros H.
  destruct (VideoFileClip mp inp) as [cause|v]; [discriminate|].
  cbn [total_duration] in H.
  destruct (is_zero (duration v)) eqn:Z0; [discriminate|].
  injection H as <-. cbn.
  apply is_zero_false in Z0.
  repeat split; try reflexivity; try exact Z0.
  - now destruct (size v).
  - intros n seg e t Hrun.
    destruct (extract_video_segments_outcomes
                {| input_path := inp;
                   output_path := output_path_or_default is_sep inp out;
                   video := v; self_fps := fps v;
                   width := fst (size v); height := snd (size v);
                   total_duration := duration v |} n seg Z0)
      as [(c & t' & E) | (t' & E)]; rewrite E in Hrun.
    + discriminate.
    + now injection Hrun.
Qed.

Lemma constructed_summarizer_has_a_duration_witness :
  VideoFileClip (loading_mp 100 None (Return tt)) "a/b.mp4"
  = Return (video (sample_self 100 None (Return 8%nat)))
  /\ input_path (sample_self 100 None (Return 8%nat)) = "a/b.mp4"%string
  /\ self_fps (sample_self 100 None (Return 8%nat))
     = fps (video (sample_self 100 None (Return 8%nat)))
  /\ (width (sample_self 100 None (Return 8%nat)),
      height (sample_self 100 None (Return 8%nat)))
     = size (video (sample_self 100 None (Return 8%nat)))
  /\ total_duration (sample_self 100 None (Return 8%nat))
     = duration (video (sample_self 100 None (Return 8%nat)))
  /\ ~ total_duration (sample_self 100 None (Return 8%nat)) == 0
  /\ forall num_segments segment_duration e t,
      extract_video_segments (sample_self 100 None (Return 8%nat))
        num_segments segment_duration = (Raise e, t) ->
      e = ZeroDivisionError.
Proof.
  apply (constructed_summarizer_has_a_duration posix_sep
           (loading_mp 100 None (Return tt)) "a/b.mp4" None).
  reflexivity.
Defined.

Lemma string_length_append (s1 s2 : string) :
  String.length (s1 ++ s2) = (String.length s1 + String.length s2)%nat.
Proof. induction s1 as [|c s1 IH]; cbn; [reflexivity|now rewrite IH]. Qed.

Lemma generated_path_length (is_sep : ascii -> bool) (p : string) :
  String.length (_generate_output_path is_sep p) = (String.length p + 8)%nat.
Proof.
  unfold _generate_output_path.
  destruct (splitext is_sep p) as [base ext] eqn:E.
  destruct (splitext_parts _ _ _ _ E) as (W & _).
  rewrite <- W, !string_length_append. cbn. lia.
Qed.

(** X13: the default output path is the input path lengthened by the
    eight characters of "_summary"; it is therefore never the input path
    itself, and never empty. *)
Theorem default_output_path_is_not_the_input
        (is_sep : ascii -> bool) (p : string) :
  String.length (_generate_output_path is_sep p) = (String.length p + 8)%nat
  /\ _generate_output_path is_sep p <> p
  /\ _generate_output_path is_sep p <> ""%string.
Proof.
  pose proof (generated_path_length is_sep p) as L.
  split; [exact L|]. split; intros H; rewrite H in L; cbn in L; lia.
Qed.

(** X16: whatever output path is passed, a constructed summarizer has a
    non-empty output path: the one passed when it is not empty, the
    default one otherwise. *)
Theorem output_path_given_or_default
        (is_sep : ascii -> bool) (mp : Moviepy) (inp : string)
        (out : option string) (self : VideoSummarizer) :
  __init__ is_sep mp inp out = Return self ->
  output_path self <> ""%string
  /\ (forall s, out = Some s -> s <> ""%string -> output_path self = s)
  /\ (out = None \/ out = Some ""%string ->
      output_path self = _generate_output_path is_sep inp).
Proof.
  unfold __init__. intros H.
  destruct (VideoFileClip mp inp) as [cause|v]; [discriminate|].
  destruct (is_zero _); [discriminate|].
  injection H as <-. cbn [output_path].
  assert (D : _generate_output_path is_sep inp <> ""%string).
  { intros E. pose proof (generated_path_length is_sep inp) as L.
    rewrite E in L. cbn in L. lia. }
  unfold output_path_or_default.
  destruct out as [s|]; [destruct (String.eqb_spec s "") as [->|Hs]|];
    cbn [truthy negb].
  - rewrite String.eqb_refl. cbn [negb].
    split; [exact D|]. split; [intros s E; injection E as <-; congruence|].
    reflexivity.
  - apply String.eqb_neq in Hs as Hs'. rewrite Hs'. cbn [negb].
    split; [exact Hs|]. split; [intros s' E; now injection E|].
    intros [E|E]; [discriminate|]. injection E as ->. now elim Hs.
  - split; [exact D|]. split; [discriminate|]. reflexivity.
Qed.

Lemma output_path_given_or_default_witness :
  output_path
    {| input_path := "a/b.mp4"; output_path := "out.mp4";
       video := sample_video 100 None (Return 8%nat); self_fps := 30;
       width := 640; height := 480; total_duration := 100 |} <> ""%string
  /\ (forall s, Some "out.mp4"%string = Some s -> s <> ""%string ->
      output_path
        {| input_path := "a/b.mp4"; output_path := "out.mp4";
           video := sample_video 100 None (Return 8%nat); self_fps := 30;
           width := 640; height := 480; total_duration := 100 |} = s)
  /\ (Some "out.mp4"%string = None \/ Some "out.mp4"%string = Some ""%string ->
      output_path
        {| input_path := "a/b.mp4"; output_path := "out.mp4";
           video := sample_video 100 None (Return 8%nat); self_fps := 30;
           width := 640; height := 480; total_duration := 100 |}
      = _generate_output_path posix_sep "a/b.mp4").
Proof.
  apply (output_path_given_or_default posix_sep
           (loading_mp 100 None (Return tt)) "a/b.mp4" (Some "out.mp4"%string)).
  reflexivity.
Defined.

(** *** The last occurrence in a list put together *)

Lemma rfind1_shift (f : ascii -> bool) (k : nat) (l : list ascii) :
  forall i,
    rfind1 f (i + k) l
    = match rfind1 f i l with O => O | S r => S (r + k) end.
Proof.
  induction l as [|c l IH]; intros i; [reflexivity|].
  cbn [rfind1]. change (S (i + k)) with (S i + k)%nat. rewrite IH.
  destruct (rfind1 f (S i) l); [destruct (f c)|]; reflexivity.
Qed.

Lemma rfind1_app (f : ascii -> bool) (l1 l2 : list ascii) :
  forall i,
    rfind1 f i (l1 ++ l2)
    = match rfind1 f (i + List.length l1) l2 with
      | O => rfind1 f i l1
      | r => r
      end.
Proof.
  induction l1 as [|c l1 IH]; intros i.
  - cbn. rewrite Nat.add_0_r. now destruct (rfind1 f i l2).
  - cbn [app rfind1 List.length]. rewrite IH.
    replace (i + S (List.length l1))%nat with (S i + List.length l1)%nat by lia.
    now destruct (rfind1 f (S i + List.length l1) l2).
Qed.

Lemma rfind1_none (f : ascii -> bool) (l : list ascii) :
  forall i, rfind1 f i l = O <-> Forall (fun c => f c = false) l.
Proof.
  induction l as [|c l IH]; intros i; cbn [rfind1].
  - split; [constructor|reflexivity].
  - specialize (IH (S i)). destruct (rfind1 f (S i) l) as [|r].
    + destruct (f c) eqn:Fc; split; intros H.
      * discriminate.
      * inversion H; congruence.
      * constructor; [exact Fc|now apply IH].
      * reflexivity.
    + split; [discriminate|]. intros H. inversion H as [|? ? _ Hl].
      apply IH in Hl. discriminate.
Qed.

Lemma rfind1_bound (f : ascii -> bool) (l : list ascii) (i k : nat) :
  rfind1 f i l = S k -> (i <= k < i + List.length l)%nat.
Proof.
  intros H. destruct (rfind1_found f l i k H) as (L & c & Hn & _).
  assert (k - i < List.length l)%nat by (apply nth_error_Some; congruence).
  lia.
Qed.

Lemma firstn_exact {A} (l1 l2 : list A) :
  firstn (List.length l1) (l1 ++ l2) = l1.
Proof.
  rewrite firstn_app, firstn_all, Nat.sub_diag. cbn. apply app_nil_r.
Qed.

Lemma skipn_exact {A} (l1 l2 : list A) :
  skipn (List.length l1) (l1 ++ l2) = l2.
Proof.
  rewrite skipn_app, skipn_all, Nat.sub_diag. reflexivity.
Qed.

(** Characters that are neither separators nor dots, put between the two
    parts of a path, go to the first part. *)
Lemma splitext_chars_insert
      (is_sep : ascii -> bool) (l b e : list ascii) (c0 : ascii)
      (mid : list ascii) :
  Forall (fun c => is_sep c = false) (c0 :: mid) ->
  Forall (fun c => is_dot c = false) (c0 :: mid) ->
  splitext_chars is_sep l = (b, e) ->
  splitext_chars is_sep (b ++ (c0 :: mid) ++ e) = (b ++ c0 :: mid, e).
Proof.
  intros NS ND H. set (S0 := c0 :: mid) in *.
  assert (NSr : forall i, rfind1 is_sep i S0 = O)
    by (intros i; now apply rfind1_none).
  assert (NDr : forall i, rfind1 is_dot i S0 = O)
    by (intros i; now apply rfind1_none).
  unfold splitext_chars in H.
  destruct (rfind1 is_sep 0 l <? rfind1 is_dot 0 l)%nat eqn:L;
    [destruct (has_non_dot l (rfind1 is_sep 0 l) (pred (rfind1 is_dot 0 l)))
       eqn:HN|].
  - (* the path was split at its last dot *)
    apply Nat.ltb_lt in L.
    destruct (rfind1 is_dot 0 l) as [|d] eqn:Ed; [lia|]. cbn [pred] in *.
    pose proof (rfind1_bound _ _ _ _ Ed) as Bd.
    injection H as Hb He.
    assert (Lb : List.length b = d)
      by (rewrite <- Hb, length_firstn; lia).
    assert (Whole : l = b ++ e)
      by (rewrite <- Hb, <- He; symmetry; apply firstn_skipn).
    assert (De : rfind1 is_dot d e = S d).
    { rewrite Whole, rfind1_app, Lb in Ed. cbn [Nat.add] in Ed.
      destruct (rfind1 is_dot d e) as [|r] eqn:X; [|exact Ed].
      apply rfind1_bound in Ed. lia. }
    assert (Se : rfind1 is_sep d e = O
                 /\ rfind1 is_sep 0 l = rfind1 is_sep 0 b).
    { rewrite Whole, rfind1_app, Lb in L |- *. cbn [Nat.add] in *.
      destruct (rfind1 is_sep d e) as [|r] eqn:X; [auto|].
      apply rfind1_bound in X. lia. }
    destruct Se as (Se & Sb). rewrite Sb in L.
    unfold splitext_chars.
    assert (Dot' : rfind1 is_dot 0 (b ++ S0 ++ e) = S (d + List.length S0)).
    { rewrite !rfind1_app, Lb. cbn [Nat.add].
      rewrite (rfind1_shift is_dot (List.length S0) e d), De. reflexivity. }
    assert (Sep' : rfind1 is_sep 0 (b ++ S0 ++ e) = rfind1 is_sep 0 b).
    { rewrite !rfind1_app, Lb. cbn [Nat.add].
      rewrite (rfind1_shift is_sep (List.length S0) e d), Se, NSr.
      reflexivity. }
    rewrite Dot', Sep'. cbn [pred].
    assert (L' : (rfind1 is_sep 0 b <? S (d + List.length S0))%nat = true)
      by (apply Nat.ltb_lt; lia).
    rewrite L'.
    assert (HN' : has_non_dot (b ++ S0 ++ e) (rfind1 is_sep 0 b)
                    (d + List.length S0) = true).
    { unfold has_non_dot.
      rewrite skipn_app.
      replace (rfind1 is_sep 0 b - List.length b)%nat with 0%nat by lia.
      cbn [skipn]. rewrite firstn_app, length_skipn, Lb.
      replace (d + List.length S0 - rfind1 is_sep 0 b
               - (d - rfind1 is_sep 0 b))%nat
        with (List.length S0) by lia.
      rewrite firstn_exact, existsb_app.
      apply orb_true_iff. right. subst S0. cbn [existsb].
      inversion ND as [|? ? Hc _]. now rewrite Hc. }
    rewrite HN'. rewrite app_assoc.
    replace (d + List.length S0)%nat with (List.length (b ++ S0))
      by (rewrite length_app; lia).
    now rewrite firstn_exact, skipn_exact.
  - (* nothing but dots before the last dot: the path was left whole *)
    apply Nat.ltb_lt in L. injection H as <- <-. rewrite app_nil_r.
    destruct (rfind1 is_dot 0 l) as [|d] eqn:Ed; [lia|]. cbn [pred] in *.
    pose proof (rfind1_bound _ _ _ _ Ed) as Bd.
    unfold splitext_chars.
    rewrite !rfind1_app, NSr, NDr, Ed. cbn [pred].
    apply Nat.ltb_lt in L as L'. rewrite L'.
    assert (HN' : has_non_dot (l ++ S0) (rfind1 is_sep 0 l) d = false).
    { unfold has_non_dot in *. rewrite skipn_app.
      replace (rfind1 is_sep 0 l - List.length l)%nat with 0%nat by lia.
      cbn [skipn]. rewrite firstn_app, length_skipn.
      replace (d - rfind1 is_sep 0 l
               - (List.length l - rfind1 is_sep 0 l))%nat with 0%nat by lia.
      cbn [firstn]. now rewrite app_nil_r. }
    now rewrite HN'.
  - (* no dot after the last separator *)
    injection H as <- <-. rewrite app_nil_r.
    unfold splitext_chars. rewrite !rfind1_app, NSr, NDr, L. reflexivity.
Qed.

Lemma list_ascii_of_string_app (s1 s2 : string) :
  list_ascii_of_string (s1 ++ s2)
  = list_ascii_of_string s1 ++ list_ascii_of_string s2.
Proof. induction s1 as [|c s1 IH]; cbn; [reflexivity|now rewrite IH]. Qed.

(** X14: where none of the characters of "_summary" is a path separator
    (as on posix and on Windows), splitting the default output path gives
    the stem of the input path followed by "_summary", and the very
    extension of the input path. *)
Theorem default_output_path_keeps_extension
        (is_sep : ascii -> bool) (p base ext : string) :
  Forall (fun c => is_sep c = false) (list_ascii_of_string "_summary") ->
  splitext is_sep p = (base, ext) ->
  splitext is_sep (_generate_output_path is_sep p)
  = ((base ++ "_summary")%string, ext).
Proof.
  intros NS H. unfold _generate_output_path. rewrite H.
  unfold splitext in *.
  destruct (splitext_chars is_sep (list_ascii_of_string p)) as [b e] eqn:E.
  injection H as <- <-.
  rewrite !list_ascii_of_string_app, !list_ascii_of_string_of_list_ascii.
  change (list_ascii_of_string "_summary")
    with ("_"%char :: list_ascii_of_string "summary") in *.
  rewrite (splitext_chars_insert is_sep (list_ascii_of_string p) b e
             "_"%char (list_ascii_of_string "summary") NS);
    [|repeat constructor|exact E].
  now rewrite string_of_list_ascii_app.
Qed.

Lemma default_output_path_keeps_extension_witness :
  splitext nt_sep (_generate_output_path nt_sep input_video_path)
  = (("C:\jvn_codes\sen\video-summary\videoplayback" ++ "_summary")%string,
     ".mp4"%string).
Proof.
  apply (default_output_path_keeps_extension nt_sep input_video_path).
  - repeat constructor.
  - reflexivity.
Defined.

(** X15: the extension [os.path.splitext] splits off contains no path
    separator: the directories of a path are all in its first part, so
    the default output path lies in the directory of the input. *)
Theorem extension_has_no_separator (is_sep : ascii -> bool) (p : string) :
  Forall (fun c => is_sep c = false)
         (list_ascii_of_string (snd (splitext is_sep p))).
Proof.
  unfold splitext, splitext_chars.
  set (l := list_ascii_of_string p).
  destruct (rfind1 is_sep 0 l <? rfind1 is_dot 0 l)%nat eqn:L;
    [destruct (has_non_dot l (rfind1 is_sep 0 l) (pred (rfind1 is_dot 0 l)))|];
    cbn [snd]; try constructor.
  rewrite list_ascii_of_string_of_list_ascii.
  apply Nat.ltb_lt in L.
  destruct (rfind1 is_dot 0 l) as [|d] eqn:Ed; [lia|]. cbn [pred].
  pose proof (rfind1_bound _ _ _ _ Ed) as Bd.
  apply (rfind1_none is_sep _ d).
  rewrite <- (firstn_skipn d l), rfind1_app, length_firstn in L.
  replace (0 + Nat.min d (List.length l))%nat with d in L by lia.
  destruct (rfind1 is_sep d (skipn d l)) as [|r] eqn:X; [reflexivity|].
  apply rfind1_bound in X. lia.
Qed.

(** The rescalings in a run of the composer. *)
Lemma rescale_requests_of_composer
      (mp : Moviepy) (self : VideoSummarizer) (video_segments : list Clip)
      (summary_duration : Q) :
  exists k,
    rescale_requests
      (snd (create_summary_video mp self video_segments summary_duration))
    = map (fun c => (c, summary_duration
                        / inject_Z (Z.of_nat (List.length video_segments))))
          (firstn k video_segments).
Proof.
  destruct video_segments as [|c0 cs] eqn:Esegs; [exists 0%nat; reflexivity|].
  rewrite <- Esegs.
  assert (Hne : video_segments <> []) by (rewrite Esegs; discriminate).
  rewrite (create_summary_video_run mp self _ _ Hne). cbn [snd].
  set (adj := summary_duration
              / inject_Z (Z.of_nat (List.length video_segments))).
  rewrite rescale_requests_app, rescale_requests_closes, app_nil_r.
  destruct (guarded_trace_cases mp self video_segments summary_duration adj)
    as [(e & k & ->) | [(rs & e & ->) | (rs & fc & final & HA & ->)]].
  - exists k.
    rewrite rescale_requests_app, rescale_requests_rescalings. cbn.
    now rewrite app_nil_r.
  - exists (List.length video_segments).
    rewrite rescale_requests_app, rescale_requests_rescalings, firstn_all.
    cbn. now rewrite app_nil_r.
  - exists (List.length video_segments).
    destruct (no_rescaling_after_concatenation mp self summary_duration
                fc final) as (NA & _).
    rewrite rescale_requests_app, rescale_requests_rescalings, firstn_all,
      rescale_requests_cons, rescale_requests_app, NA, rescale_requests_cons.
    destruct (write_videofile mp final (output_path self)
                "libx264" "aac" (self_fps self)); cbn;
      now rewrite !app_nil_r.
Qed.

(** X17: whatever the library does, the composer asks for rescalings of
    its input clips only, in their order, from the first one on, and
    always to the same duration [summary_duration / N]. *)
Theorem every_rescaling_is_to_the_adjusted_duration
        (mp : Moviepy) (self : VideoSummarizer) (video_segments : list Clip)
        (summary_duration : Q) :
  exists k,
    rescale_requests
      (snd (create_summary_video mp self video_segments summary_duration))
    = map (fun c => (c, summary_duration
                        / inject_Z (Z.of_nat (List.length video_segments))))
          (firstn k video_segments)
    /\ (k <= List.length video_segments)%nat.
Proof.
  destruct (rescale_requests_of_composer mp self video_segments
              summary_duration) as (k & E).
  exists (Nat.min k (List.length video_segments)). split; [|lia].
  rewrite E. f_equal.
  destruct (Nat.le_ge_cases k (List.length video_segments)) as [L|G].
  - now rewrite Nat.min_l.
  - rewrite Nat.min_r, firstn_all by exact G. now apply firstn_all2.
Qed.

(** The composer asks for no slice. *)
Lemma composer_asks_no_slice
      (mp : Moviepy) (self : VideoSummarizer) (video_segments : list Clip)
      (summary_duration : Q) :
  requested_ranges
    (snd (create_summary_video mp self video_segments summary_duration)) = [].
Proof.
  destruct video_segments as [|c0 cs] eqn:Esegs; [reflexivity|].
  rewrite <- Esegs.
  assert (Hne : video_segments <> []) by (rewrite Esegs; discriminate).
  rewrite (create_summary_video_run mp self _ _ Hne). cbn [snd].
  assert (RW : forall d xs,
             requested_ranges (map (fun c => CallWithDuration c d) xs) = [])
    by (intros d xs; induction xs; [reflexivity|assumption]).
  assert (RC : forall xs, requested_ranges (map CallClose xs) = [])
    by (intros xs; induction xs; [reflexivity|assumption]).
  rewrite requested_ranges_app, RC, app_nil_r.
  destruct (guarded_trace_cases mp self video_segments summary_duration
              (summary_duration
               / inject_Z (Z.of_nat (List.length video_segments))))
    as [(e & k & ->) | [(rs & e & ->) | (rs & fc & final & HA & ->)]];
    rewrite requested_ranges_app, RW; [reflexivity|reflexivity|].
  cbn [app].
  change (requested_ranges (?x :: ?l)) with (requested_ranges l).
  rewrite requested_ranges_app, add_audio_run.
  destruct (audio (video self)) as [a|];
    [destruct (audio_subclip (video self) a 0 summary_duration) as [e|a'];
     [|destruct (set_audio mp fc a')]|];
    destruct (write_videofile mp final (output_path self)
                "libx264" "aac" (self_fps self)); reflexivity.
Qed.

(** ** The driver *)

Lemma reports_app (t1 t2 : list main_event) :
  reports (t1 ++ t2) = reports t1 ++ reports t2.
Proof. apply filter_app. Qed.

Lemma reports_within (t : list event) : reports (map Within t) = [].
Proof. induction t as [|ev t IH]; [reflexivity|exact IH]. Qed.

Lemma reports_constructor (mp : Moviepy) (inp : string) :
  reports (constructor_prints mp inp) = [].
Proof.
  unfold constructor_prints. now destruct (VideoFileClip mp inp).
Qed.

Lemma inner_app (t1 t2 : list main_event) :
  inner (t1 ++ t2) = inner t1 ++ inner t2.
Proof. apply flat_map_app. Qed.

Lemma inner_within (t : list event) : inner (map Within t) = t.
Proof.
  induction t as [|ev t IH]; [reflexivity|].
  cbn [map]. change (inner (Within ev :: map Within t))
    with (ev :: inner (map Within t)).
  now rewrite IH.
Qed.

Lemma inner_constructor (mp : Moviepy) (inp : string) :
  inner (constructor_prints mp inp) = [].
Proof.
  unfold constructor_prints. now destruct (VideoFileClip mp inp).
Qed.

(** [main] past the constructor. *)
Lemma main_constructed
      (is_sep : ascii -> bool) (mp : Moviepy) (summarizer : VideoSummarizer) :
  __init__ is_sep mp input_video_path None = Return summarizer ->
  main is_sep mp
  = constructor_prints mp input_video_path
    ++ match extract_video_segments summarizer 5 3 with
       | (Raise e, t) => map Within t ++ [PrintErrorOccurred e]
       | (Return [], t) => map Within t ++ [PrintNoSegments]
       | (Return video_segments, t) =>
           map Within t
           ++ map Within
                (snd (create_summary_video mp summarizer video_segments 30))
           ++ [PrintSummaryCreated (output_path summarizer)]
       end.
Proof.
  intros H. unfold main. rewrite H.
  destruct (extract_video_segments summarizer 5 3) as [[e|[|c cs]] t];
    try reflexivity.
  assert (Hne : c :: cs <> []) by discriminate.
  now rewrite (create_summary_video_run mp summarizer _ 30 Hne).
Qed.

(** X18: every run of [main] ends with exactly one report, its last print:
    the summary was created, or no segment was extracted, or an error
    occurred. *)
Theorem main_ends_with_one_report (is_sep : ascii -> bool) (mp : Moviepy) :
  exists before r,
    main is_sep mp = before ++ [r]
    /\ reports (main is_sep mp) = [r].
Proof.
  destruct (__init__ is_sep mp input_video_path None) as [e|self] eqn:I.
  - exists (constructor_prints mp input_video_path), (PrintErrorOccurred e).
    unfold main. rewrite I. split; [reflexivity|].
    now rewrite reports_app, reports_constructor.
  - rewrite (main_constructed is_sep mp self I).
    destruct (extract_video_segments self 5 3) as [[e|[|c cs]] t];
      eexists; eexists;
      (split; [rewrite ?app_assoc; reflexivity|]);
      rewrite !reports_app, reports_constructor, ?reports_within;
      reflexivity.
Qed.

(** X19: on a video that loads but is shorter than the three seconds of one
    segment, [main] extracts nothing and creates nothing: after the
    announcement of a reduction to 0 segments its report is the error of a
    division by zero. *)
Theorem main_on_a_source_shorter_than_a_segment
        (is_sep : ascii -> bool) (mp : Moviepy) (v : Video) :
  VideoFileClip mp input_video_path = Return v ->
  0 < duration v -> duration v < 3 ->
  main is_sep mp
  = [PrintVideoDuration (duration v); PrintVideoFPS (fps v);
     PrintVideoSize (fst (size v)) (snd (size v));
     Within (PrintTooShort 5 3); Within (PrintReducing 0);
     PrintErrorOccurred ZeroDivisionError].
Proof.
  intros HV H0 H3.
  assert (Z0 : is_zero (duration v) = false) by (apply is_zero_false; lra).
  assert (I : __init__ is_sep mp input_video_path None
              = Return {| input_path := input_video_path;
                          output_path := _generate_output_path is_sep
                                           input_video_path;
                          video := v; self_fps := fps v;
                          width := fst (size v); height := snd (size v);
                          total_duration := duration v |}).
  { unfold __init__. rewrite HV. cbn [total_duration]. now rewrite Z0. }
  rewrite (main_constructed is_sep mp _ I).
  rewrite no_segment_fits_raises; [|exact H0|reflexivity|exact H3].
  unfold constructor_prints. rewrite HV. reflexivity.
Qed.

Lemma main_on_a_source_shorter_than_a_segment_witness :
  main nt_sep (loading_mp 2 None (Return tt))
  = [PrintVideoDuration 2; PrintVideoFPS 30; PrintVideoSize 640 480;
     Within (PrintTooShort 5 3); Within (PrintReducing 0);
     PrintErrorOccurred ZeroDivisionError].
Proof.
  apply (main_on_a_source_shorter_than_a_segment nt_sep
           (loading_mp 2 None (Return tt))
           (sample_video 2 None (Return 8%nat))); reflexivity.
Defined.

Lemma init_loaded
      (is_sep : ascii -> bool) (mp : Moviepy) (inp : string) (v : Video) :
  VideoFileClip mp inp = Return v -> ~ duration v == 0 ->
  __init__ is_sep mp inp None = Return (summarizer_of is_sep inp v).
Proof.
  intros HV HD. apply is_zero_false in HD.
  unfold __init__. rewrite HV. cbn [total_duration]. now rewrite HD.
Qed.

(** With three seconds of video or more, the planner of [main] returns. *)
Lemma main_plan_returns (self : VideoSummarizer) :
  3 <= total_duration self ->
  exists clips t, extract_video_segments self 5 3 = (Return clips, t).
Proof.
  intros H3.
  assert (HD : 0 < total_duration self) by lra.
  destruct (Qlt_le_dec (total_duration self) (inject_Z 5 * 3)) as [Short|Enough].
  - destruct (quotient_bounds (total_duration self) 3 eq_refl) as (_ & _ & Q2).
    destruct (plan_reduced_when_too_short self 5 3 HD eq_refl eq_refl Short
                (Qfloor_ge_1 _ (Q2 H3))) as (clips & t & E & _).
    eauto.
  - destruct (plan_exact_when_long_enough self 5 3 HD eq_refl eq_refl Enough)
      as (clips & t & E & _).
    eauto.
Qed.

(** X20: when the video loads and lasts three seconds or more, [main]
    reports no error: it reports the summary as created, at the default
    output path, as soon as the library honoured one slice (whatever
    happened to the rescaling, the concatenation or the encoding
    afterwards), and that no segment was extracted otherwise. *)
Theorem main_reports_created_after_any_slice
        (is_sep : ascii -> bool) (mp : Moviepy) (v : Video) :
  VideoFileClip mp input_video_path = Return v ->
  3 <= duration v ->
  exists clips t,
    extract_video_segments (summarizer_of is_sep input_video_path v) 5 3
    = (Return clips, t)
    /\ reports (main is_sep mp)
       = [match clips with
          | [] => PrintNoSegments
          | _ => PrintSummaryCreated
                   (_generate_output_path is_sep input_video_path)
          end].
Proof.
  intros HV H3.
  assert (HD : ~ duration v == 0) by lra.
  pose proof (init_loaded is_sep mp _ v HV HD) as I.
  destruct (main_plan_returns (summarizer_of is_sep input_video_path v) H3)
    as (clips & t & E).
  exists clips, t. split; [exact E|].
  rewrite (main_constructed is_sep mp _ I), E.
  destruct clips as [|c cs];
    rewrite !reports_app, reports_constructor, ?reports_within; reflexivity.
Qed.

Lemma main_reports_created_after_any_slice_witness :
  exists clips t,
    extract_video_segments
      (summarizer_of nt_sep input_video_path
         (sample_video 100 None (Return 8%nat))) 5 3
    = (Return clips, t)
    /\ reports (main nt_sep
                  (loading_mp 100 None (Raise (BackendError "encoder failed"))))
       = [match clips with
          | [] => PrintNoSegments
          | _ => PrintSummaryCreated
                   (_generate_output_path nt_sep input_video_path)
          end].
Proof.
  apply (main_reports_created_after_any_slice nt_sep
           (loading_mp 100 None (Raise (BackendError "encoder failed")))
           (sample_video 100 None (Return 8%nat))).
  - reflexivity.
  - discriminate.
Defined.

(** X21: on a video that loads and lasts fifteen seconds or more, [main]
    asks for exactly five slices, the i-th from [i * duration / 5] and
    three seconds long; and every rescaling it then asks for is of one of
    the clips the library handed out for them, in order, to thirty seconds
    divided by the number of those clips. *)
Theorem main_samples_five_segments
        (is_sep : ascii -> bool) (mp : Moviepy) (v : Video) :
  VideoFileClip mp input_video_path = Return v ->
  15 <= duration v ->
  List.length (requested_ranges (inner (main is_sep mp))) = 5%nat
  /\ (forall i, (i < 5)%nat ->
        fst (nth i (requested_ranges (inner (main is_sep mp))) (0, 0))
        == inject_Z (Z.of_nat i) * (duration v / 5)
        /\ snd (nth i (requested_ranges (inner (main is_sep mp))) (0, 0))
           == fst (nth i (requested_ranges (inner (main is_sep mp))) (0, 0))
              + 3)
  /\ exists k,
      rescale_requests (inner (main is_sep mp))
      = map (fun c =>
               (c, 30 / inject_Z
                         (Z.of_nat
                            (List.length
                               (honoured v
                                  (requested_ranges
                                     (inner (main is_sep mp))))))))
            (firstn k (honoured v
                         (requested_ranges (inner (main is_sep mp))))).
Proof.
  intros HV H15.
  assert (HD : ~ duration v == 0) by lra.
  pose proof (init_loaded is_sep mp _ v HV HD) as I.
  set (self := summarizer_of is_sep input_video_path v) in *.
  assert (Enough : inject_Z 5 * 3 <= total_duration self).
  { change (total_duration self) with (duration v).
    change (inject_Z 5) with 5. lra. }
  destruct (extract_video_segments_run_clips self 5 3 5 [] HD
              (effective_count_enough self 5 3 Enough))
    as (t1 & E & R & _ & _ & X); [discriminate|].
  set (iv := Qmax 1 (total_duration self / inject_Z 5)) in *.
  set (plan := map (segment_range self iv 3) (range 5)) in *.
  cbn [app] in E.
  assert (Inner : requested_ranges (inner (main is_sep mp)) = plan
                  /\ exists k,
                      rescale_requests (inner (main is_sep mp))
                      = map (fun c =>
                               (c, 30 / inject_Z
                                         (Z.of_nat
                                            (List.length
                                               (honoured v plan)))))
                            (firstn k (honoured v plan))).
  { rewrite (main_constructed is_sep mp self I), E.
    change (video self) with v.
    destruct (honoured v plan) as [|c cs] eqn:Hh.
    - rewrite !inner_app, inner_constructor, inner_within. cbn [app inner flat_map].
      rewrite !app_nil_r, requested_ranges_app, rescale_requests_app, R, X.
      cbn. rewrite app_nil_r. split; [reflexivity|].
      exists 0%nat. reflexivity.
    - rewrite !inner_app, inner_constructor, !inner_within.
      cbn [app inner flat_map]. rewrite !app_nil_r.
      rewrite !requested_ranges_app, !rescale_requests_app, R, X,
        composer_asks_no_slice.
      cbn [app]. rewrite !app_nil_r. split; [reflexivity|].
      apply rescale_requests_of_composer. }
  destruct Inner as (-> & K).
  split; [reflexivity|]. split; [|exact K].
  intros i Hi. subst plan.
  rewrite nth_indep with (d' := segment_range self iv 3 0%Z)
    by (rewrite length_map, length_range; cbn; lia).
  rewrite map_nth, nth_range_nat by (rewrite length_range; cbn; lia).
  cbn [segment_range fst snd].
  assert (Hq : 3 <= total_duration self / inject_Z 5).
  { apply Qle_shift_div_l; [reflexivity|].
    change (total_duration self) with (duration v).
    change (inject_Z 5) with 5. lra. }
  assert (Hiv : iv == duration v / 5).
  { subst iv. rewrite Qmax_1_div by lra. reflexivity. }
  assert (I4 : 0 <= inject_Z (Z.of_nat i) /\ inject_Z (Z.of_nat i) <= 4).
  { split.
    - change 0 with (inject_Z 0). rewrite <- Zle_Qle. lia.
    - change 4 with (inject_Z 4). rewrite <- Zle_Qle. lia. }
  assert (E5 : inject_Z 5 * (total_duration self / inject_Z 5)
               == total_duration self) by (apply Qmult_div_r; discriminate).
  change (total_duration self) with (duration v) in *.
  change (inject_Z 5) with 5 in *.
  split.
  - now rewrite Hiv.
  - apply Q.min_l. rewrite Hiv.
    set (q := duration v / 5) in *. nra.
Qed.

Lemma main_samples_five_segments_witness :
  List.length
    (requested_ranges (inner (main nt_sep (loading_mp 100 None (Return tt)))))
  = 5%nat
  /\ (forall i, (i < 5)%nat ->
        fst (nth i (requested_ranges
                      (inner (main nt_sep (loading_mp 100 None (Return tt)))))
                 (0, 0))
        == inject_Z (Z.of_nat i) * (100 / 5)
        /\ snd (nth i (requested_ranges
                         (inner (main nt_sep
                                   (loading_mp 100 None (Return tt)))))
                    (0, 0))
           == fst (nth i (requested_ranges
                            (inner (main nt_sep
                                      (loading_mp 100 None (Return tt)))))
                       (0, 0))
              + 3)
  /\ exists k,
      rescale_requests (inner (main nt_sep (loading_mp 100 None (Return tt))))
      = map (fun c =>
               (c, 30 / inject_Z
                         (Z.of_nat
                            (List.length
                               (honoured (sample_video 100 None (Return 8%nat))
                                  (requested_ranges
                                     (inner (main nt_sep
                                               (loading_mp 100 None
                                                  (Return tt))))))))))
            (firstn k (honoured (sample_video 100 None (Return 8%nat))
                         (requested_ranges
                            (inner (main nt_sep
                                      (loading_mp 100 None (Return tt))))))).
Proof.
  apply (main_samples_five_segments nt_sep (loading_mp 100 None (Return tt))
           (sample_video 100 None (Return 8%nat))).
  - reflexivity.
  - discriminate.
Defined.

(** The scenario of a hundred seconds: slices at 0, 20, 40, 60 and 80, each
    rescaled to six seconds. *)
Example main_on_a_hundred_seconds :
  requested_ranges (inner (main nt_sep (loading_mp 100 None (Return tt))))
  = [(0 # 5, 15 # 5); (100 # 5, 115 # 5); (200 # 5, 215 # 5);
     (300 # 5, 315 # 5); (400 # 5, 415 # 5)]
  /\ rescale_requests (inner (main nt_sep (loading_mp 100 None (Return tt))))
     = [(0%nat, 30 # 5); (20%nat, 30 # 5); (40%nat, 30 # 5);
        (60%nat, 30 # 5); (80%nat, 30 # 5)].
Proof. split; reflexivity. Qed.
